(** * A grocery storefront: session cart, checkout, stock and order back office

    Shallow embedding of the request handlers of [app.py] over the tables of
    [models.py].

    Modelling conventions.
    - A Python [float], and a [db.Float] column, is the rational number it
      denotes ([Q]); [+], [-] and [*] on floats give the double nearest to
      the exact result, ties to even ([fadd], [fsub], [fmul] over
      [round64]); [==], [>], [<=], [% 1] and [int] are exact.  Infinities
      and NaN are outside the model.
    - The ['product_id'] of a cart request is the JSON value as sent: an
      integer, or a string that holds the decimal numeral of an integer
      ([ProductId]).  Python's [==] tells the two apart; the database
      matches both to the same integer key ([key_of]).
    - A table is a finite map from its integer primary key to the row
      ([products], [orders]) or the list of its rows in insertion order
      ([order_items]).
    - The Flask session is a record; the key ['cart'] may be absent.
    - A handler is a function from the state before the request to the
      response and the state after it.  [flash] is recorded in the response.
    - [datetime.strptime] is a library function: it is a parameter of the
      development.
    - Form and JSON fields that the handlers pass to [float] arrive as
      numbers.
    - Banners, sellers' passwords, the storage of uploads, the bill and the
      notification e-mail touch none of the tables modelled here and are
      left out; [send_order_email] runs after the commit and catches its
      own failures.  The table of pickup slots stands apart from the
      others and is passed to [sync_time_slots] on its own. *)

From Stdlib Require Import QArith Qround ZArith String Ascii DecimalString.
From stdpp Require Import gmap strings list.

Local Open Scope Q_scope.
Local Open Scope string_scope.

(** ** Python values *)

(** [a > b] on numbers. *)
Definition Qgtb (a b : Q) : bool := negb (Qle_bool a b).

(** [quantity % 1]: Python's modulo takes the sign of the divisor. *)
Definition py_mod1 (q : Q) : Q := q - inject_Z (Qfloor q).

(** [int(x)] truncates toward zero. *)
Definition py_int (q : Q) : Z := Z.quot (Qnum q) (Z.pos (Qden q)).

(** [str(n)] for an integer. *)
Definition str_int (n : Z) : string := NilZero.string_of_int (Z.to_int n).

(** *** Floating-point arithmetic *)

(** 2^u as a rational, for any integer u. *)
Definition pow2 (u : Z) : Q :=
  match u with
  | Z0 => 1
  | Zpos p => inject_Z (2 ^ Zpos p)
  | Zneg p => 1 # (2 ^ p)%positive
  end.

(** The integer nearest to n/d, for n >= 0; of two, the even one. *)
Definition nearest_even (n : Z) (d : positive) : Z :=
  let fl := (n / Zpos d)%Z in
  let r := (n mod Zpos d)%Z in
  match (2 * r ?= Zpos d)%Z with
  | Lt => fl
  | Gt => (fl + 1)%Z
  | Eq => if Z.even fl then fl else (fl + 1)%Z
  end.

(** The e with 2^e <= n/d < 2^(e+1). *)
Definition floor_log2 (n d : positive) : Z :=
  let e := (Z.log2 (Zpos n) - Z.log2 (Zpos d))%Z in
  if Qle_bool (pow2 e) (Zpos n # d) then e else (e - 1)%Z.

(** The double nearest to n/d: 53 bits at the exponent of n/d, and no bit
    below 2^-1074. *)
Definition round64_pos (n d : positive) : Q :=
  let e := floor_log2 n d in
  let u := Z.max (e - 52) (-1074) in
  let scaled := (Zpos n # d) * pow2 (- u) in
  let m := nearest_even (Qnum scaled) (Qden scaled) in
  Qred (inject_Z m * pow2 u).

(** The double nearest to a rational, in lowest terms. *)
Definition round64 (q : Q) : Q :=
  match Qred q with
  | Qmake Z0 _ => 0
  | Qmake (Zpos n) d => round64_pos n d
  | Qmake (Zneg n) d => - round64_pos n d
  end.

(** [a + b], [a - b] and [a * b] on floats. *)
Definition fadd (a b : Q) : Q := round64 (a + b).
Definition fsub (a b : Q) : Q := round64 (a - b).
Definition fmul (a b : Q) : Q := round64 (a * b).

(** A float literal of the source, as [0.1]: the double nearest to the
    decimal written. *)
Definition py_float (literal : Q) : Q := round64 literal.

(** *** [str] of a float *)

Definition pow10 (k : Z) : Q :=
  match k with
  | Z0 => 1
  | Zpos p => inject_Z (10 ^ Zpos p)
  | Zneg p => 1 # (10 ^ p)%positive
  end.

(** The least k' >= k with a < 10^k', within the fuel. *)
Fixpoint climb (fuel : nat) (a : Q) (k : Z) : Z :=
  match fuel with
  | O => k
  | S fuel' => if Qle_bool (pow10 k) a then climb fuel' a (k + 1) else k
  end.

(** The k with 10^(k-1) <= a < 10^k, for a > 0: the search starts below
    it, from the binary exponent. *)
Definition decimal_point (a : Q) : Z :=
  let l := (Z.log2 (Qnum a) - Z.log2 (Zpos (Qden a)))%Z in
  climb 6 a ((l * 30103) / 100000 - 2).

(** An integer c of n digits (or 10^n) such that c * 10^(k-n) reads back
    as the double a; of two, the nearer one. *)
Definition digits_for (a : Q) (k n : Z) : option Z :=
  let scaled := a * pow10 (n - k) in
  let lo := Qfloor scaled in
  let hi := (lo + 1)%Z in
  let reads_back c := Qeq_bool (round64 (inject_Z c * pow10 (k - n))) a in
  match reads_back lo, reads_back hi with
  | true, true => Some (nearest_even (Qnum scaled) (Qden scaled))
  | true, false => Some lo
  | false, true => Some hi
  | false, false => None
  end.

(** The shortest digits that read back, from n digits on; 17 always do. *)
Fixpoint shortest (fuel : nat) (a : Q) (k n : Z) : Z * Z :=
  match fuel with
  | O =>
      (nearest_even (Qnum (a * pow10 (n - k))) (Qden (a * pow10 (n - k))), n)
  | S fuel' =>
      match digits_for a k n with
      | Some c => (c, n)
      | None => shortest fuel' a k (n + 1)
      end
  end.

Fixpoint strip_zeros (s : list ascii) : list ascii :=
  match s with
  | "0"%char :: rest => strip_zeros rest
  | _ => s
  end.

Definition strip_trailing_zeros (s : string) : string :=
  string_of_list_ascii (rev (strip_zeros (rev (list_ascii_of_string s)))).

Fixpoint zeros (n : nat) : string :=
  match n with
  | O => ""
  | S n' => String "0" (zeros n')
  end.

Definition two_digits (e : Z) : string :=
  if (e <? 10)%Z then "0" +:+ str_int e else str_int e.

(** [repr] of a positive float: the shortest digits that read back, with
    an exponent when the decimal point is more than 16 places right or 4
    or more places left of the first digit. *)
Definition repr_pos (a : Q) : string :=
  let k := decimal_point a in
  let '(c, n) := shortest 16 a k 1 in
  let all := str_int c in
  let decpt := (k + (Z.of_nat (String.length all) - n))%Z in
  let digits := strip_trailing_zeros all in
  let len := Z.of_nat (String.length digits) in
  if (decpt <=? -4)%Z || (16 <? decpt)%Z then
    let e := (decpt - 1)%Z in
    substring 0 1 digits +:+
    (if (1 <? len)%Z
     then "." +:+ substring 1 (String.length digits - 1) digits
     else "") +:+
    "e" +:+ (if (e <? 0)%Z then "-" else "+") +:+ two_digits (Z.abs e)
  else if (decpt <=? 0)%Z then
    "0." +:+ zeros (Z.to_nat (- decpt)) +:+ digits
  else if (len <=? decpt)%Z then
    digits +:+ zeros (Z.to_nat (decpt - len)) +:+ ".0"
  else
    substring 0 (Z.to_nat decpt) digits +:+ "." +:+
    substring (Z.to_nat decpt) (String.length digits - Z.to_nat decpt) digits.

(** [str(x)] for a float. *)
Definition str_float (q : Q) : string :=
  match Qnum q with
  | Z0 => "0.0"
  | Zpos _ => repr_pos q
  | Zneg _ => "-" +:+ repr_pos (- q)
  end.

(** *** Product ids in requests *)

(** The value under ['product_id'] in the JSON body of a cart request. *)
Inductive ProductId :=
| int_id (n : Z)   (** the number n *)
| str_id (n : Z).  (** the string that holds the decimal numeral of n *)

(** [a == b]: a number and a string are never equal. *)
Definition py_eq (a b : ProductId) : bool :=
  match a, b with
  | int_id m, int_id n => Z.eqb m n
  | str_id m, str_id n => Z.eqb m n
  | _, _ => false
  end.

(** [a != b] is decided alike: two values are equal when they are the same
    number or the same string. *)
#[export] Instance ProductId_eq_dec : EqDecision ProductId.
Proof. solve_decision. Defined.

(** The key that [Product.query.get(product_id)] finds. *)
Definition key_of (id : ProductId) : Z :=
  match id with
  | int_id n => n
  | str_id n => n
  end.

(** Truthiness of the result of [request.form.get]: [None] and the empty
    string are false. *)
Definition truthy (v : option string) : bool :=
  match v with
  | Some s => negb (String.eqb s "")
  | None => false
  end.

(** [x or None] *)
Definition or_None (v : option string) : option string :=
  if truthy v then v else None.

Record datetime := mk_datetime
  { year : Z; month : Z; day : Z; hour : Z; minute : Z; second : Z }.

(** ** Tables ([models.py]) *)

Module Product.
Record t := mk
  { name : string;
    description : option string;
    price : Q;
    original_price : option Q;
    quantity_available : Q;
    unit_type : string;
    image_path : option string;
    created_at : datetime }.

Definition set_quantity_available (v : Q) (p : t) : t :=
  mk (name p) (description p) (price p) (original_price p) v
     (unit_type p) (image_path p) (created_at p).
End Product.

Module Order.
Record t := mk
  { customer_name : string;
    customer_email : option string;
    customer_phone : string;
    pickup_time : datetime;
    total_amount : Q;
    status : string;
    created_at : datetime }.

Definition set_status (v : string) (o : t) : t :=
  mk (customer_name o) (customer_email o) (customer_phone o)
     (pickup_time o) (total_amount o) v (created_at o).
End Order.

Module OrderItem.
Record t := mk
  { id : Z;
    order_id : Z;
    product_id : Z;
    quantity : Q;
    price : Q }.
End OrderItem.

(** One entry of [session['cart']]. *)
Module CartItem.
Record t := mk
  { product_id : ProductId;
    quantity : Q;
    price : Q;
    name : string;
    image_path : option string;
    unit_type : string }.

Definition set_quantity (v : Q) (i : t) : t :=
  mk (product_id i) v (price i) (name i) (image_path i) (unit_type i).
End CartItem.

Record Database := mk_db
  { products : gmap Z Product.t;
    orders : gmap Z Order.t;
    order_items : list OrderItem.t }.

Record Session := mk_session
  { cart : option (list CartItem.t);
    seller_id : option Z }.

Record State := mk_state
  { db : Database;
    session : Session }.

Definition set_cart (c : option (list CartItem.t)) (st : State) : State :=
  mk_state (db st) (mk_session c (seller_id (session st))).

Definition set_db (d : Database) (st : State) : State :=
  mk_state d (session st).

(** The key SQLite gives the next inserted row: one more than the largest
    key in the table, 1 in an empty table. *)
Definition next_key (keys : list Z) : Z := 1 + foldr Z.max 0%Z keys.

Definition next_id {A} (table : gmap Z A) : Z :=
  next_key (fst <$> map_to_list table).

(** [Order.items]: the rows of [order_items] whose foreign key is the order. *)
Definition items_of (oid : Z) (items : list OrderItem.t) : list OrderItem.t :=
  filter (fun it => OrderItem.order_id it = oid) items.

(** ** Responses *)

Inductive endpoint :=
| ep_cart
| ep_checkout
| ep_order_confirmation (order_id : Z)
| ep_seller_login
| ep_seller_products
| ep_seller_orders.

Inductive JsonBody :=
| json_error (msg : string)
| json_success
| json_success_count (cart_count : nat).

Inductive Response :=
| jsonify (body : JsonBody) (status : Z)
| redirect (to : endpoint) (flashed : option (string * string))
| abort_404.

(** The error taxonomy of the specification, read off the responses. *)
Definition InsufficientStock : Response :=
  jsonify (json_error "Insufficient stock") 400.

Definition CartIsEmpty : Response :=
  jsonify (json_error "Cart is empty") 400.

Definition OutOfStock : Response :=
  redirect ep_cart
    (Some ("Some items in your cart are out of stock or have changed. Please review your cart.",
           "error")).

Definition is_placed (r : Response) : bool :=
  match r with
  | redirect (ep_order_confirmation _) _ => true
  | _ => false
  end.

(** ** Quantity display ([format_quantity]) *)

Definition format_quantity (quantity : Q) (unit_type : string) : string :=
  if String.eqb unit_type "kg" then
    if Qeq_bool quantity 1.0 then "1 kg"
    else if Qeq_bool quantity 0.75 then "750g"
    else if Qeq_bool quantity 0.5 then "500g"
    else if Qeq_bool quantity 0.25 then "250g"
    else if Qeq_bool quantity (py_float 0.1) then "100g"
    else if Qeq_bool (py_mod1 quantity) 0 then
      str_int (py_int quantity) +:+ " kg"
    else
      let grams := py_int (fmul quantity 1000) in
      str_int grams +:+ "g"
  else
    if Qeq_bool (py_mod1 quantity) 0 then str_int (py_int quantity)
    else str_float quantity.

(** ** Cart routes *)

Inductive merge_result :=
| item_not_found
| merge_insufficient
| merged (cart' : list CartItem.t).

(** The loop of [add_to_cart] over the cart: the first line whose
    ['product_id'] equals the submitted one takes the added quantity,
    unless the sum exceeds the stock. *)
Fixpoint merge_item (cart : list CartItem.t) (product_id : ProductId)
    (quantity : Q) (available : Q) : merge_result :=
  match cart with
  | [] => item_not_found
  | item :: rest =>
      if py_eq (CartItem.product_id item) product_id then
        let new_quantity := fadd (CartItem.quantity item) quantity in
        if Qgtb new_quantity available then merge_insufficient
        else merged (CartItem.set_quantity new_quantity item :: rest)
      else
        match merge_item rest product_id quantity available with
        | merged rest' => merged (item :: rest')
        | r => r
        end
  end.

Definition add_to_cart (product_id : ProductId) (quantity : Q) (st : State)
    : Response * State :=
  match products (db st) !! key_of product_id with
  | None => (abort_404, st)
  | Some product =>
      if Qgtb quantity (Product.quantity_available product) then
        (InsufficientStock, st)
      else
        let st := match cart (session st) with
                  | None => set_cart (Some []) st
                  | Some _ => st
                  end in
        let cart := default [] (cart (session st)) in
        match merge_item cart product_id quantity
                (Product.quantity_available product) with
        | merge_insufficient => (InsufficientStock, st)
        | merged cart' =>
            (jsonify (json_success_count (length cart')) 200,
             set_cart (Some cart') st)
        | item_not_found =>
            let cart' :=
              (cart ++ [CartItem.mk product_id quantity
                          (Product.price product) (Product.name product)
                          (Product.image_path product)
                          (Product.unit_type product)])%list in
            (jsonify (json_success_count (length cart')) 200,
             set_cart (Some cart') st)
        end
  end.

(** The loop of [update_cart]: the first line whose ['product_id'] equals
    the submitted one is removed when the quantity is zero, and takes the
    quantity otherwise. *)
Fixpoint set_item (cart : list CartItem.t) (product_id : ProductId)
    (quantity : Q) : list CartItem.t :=
  match cart with
  | [] => []
  | item :: rest =>
      if py_eq (CartItem.product_id item) product_id then
        if Qeq_bool quantity 0 then rest
        else CartItem.set_quantity quantity item :: rest
      else item :: set_item rest product_id quantity
  end.

Definition update_cart (product_id : ProductId) (quantity : Q) (st : State)
    : Response * State :=
  match cart (session st) with
  | None => (CartIsEmpty, st)
  | Some cart =>
      match products (db st) !! key_of product_id with
      | None => (abort_404, st)
      | Some product =>
          if Qgtb quantity (Product.quantity_available product) then
            (InsufficientStock, st)
          else
            (jsonify json_success 200,
             set_cart (Some (set_item cart product_id quantity)) st)
      end
  end.

Definition remove_from_cart (product_id : ProductId) (st : State)
    : Response * State :=
  match cart (session st) with
  | None => (CartIsEmpty, st)
  | Some cart =>
      (jsonify json_success 200,
       set_cart
         (Some (filter (fun item => CartItem.product_id item ≠ product_id)
                  cart)) st)
  end.

(** ** Checkout *)

Record CheckoutForm := mk_form
  { customer_name : option string;
    customer_email : option string;
    customer_phone : option string;
    pickup_date : option string;
    pickup_time_slot : option string }.

(** An entry of the local list [cart_items] of [process_checkout].  Its
    ['product'] is the row object the session loaded, named by its key. *)
Record CheckedItem := mk_checked
  { ci_product : Z;
    ci_quantity : Q;
    ci_price : Q;
    ci_subtotal : Q }.

(** The first loop of [process_checkout]: every line is checked against the
    stock as read now; [None] is the early return. *)
Fixpoint validate_stock (catalog : gmap Z Product.t) (cart : list CartItem.t)
    (total : Q) (cart_items : list CheckedItem)
    : option (Q * list CheckedItem) :=
  match cart with
  | [] => Some (total, cart_items)
  | item :: rest =>
      match catalog !! key_of (CartItem.product_id item) with
      | None => None
      | Some product =>
          if Qle_bool (Product.quantity_available product) 0
             || Qgtb (CartItem.quantity item)
                  (Product.quantity_available product)
          then None
          else
            let subtotal :=
              fmul (CartItem.price item) (CartItem.quantity item) in
            validate_stock catalog rest (fadd total subtotal)
              (cart_items ++
               [mk_checked (key_of (CartItem.product_id item))
                  (CartItem.quantity item) (CartItem.price item) subtotal])%list
      end
  end.

(** [product.quantity_available -= quantity] on the loaded row. *)
Definition decrement (quantity : Q) (p : Product.t) : Product.t :=
  Product.set_quantity_available
    (fsub (Product.quantity_available p) quantity) p.

(** The second loop of [process_checkout]: one [OrderItem] per entry, and
    the stock of its product reduced. *)
Fixpoint create_items (order_id : Z) (cart_items : list CheckedItem)
    (d : Database) : Database :=
  match cart_items with
  | [] => d
  | item :: rest =>
      let order_item :=
        OrderItem.mk (next_key (OrderItem.id <$> order_items d)) order_id
          (ci_product item) (ci_quantity item) (ci_price item) in
      create_items order_id rest
        (mk_db (alter (decrement (ci_quantity item)) (ci_product item)
                  (products d))
               (orders d)
               (order_items d ++ [order_item])%list)
  end.

Section Checkout.
(** [datetime.strptime(text, format)]; [None] stands for its exception. *)
Variable strptime : string -> string -> option datetime.

Definition process_checkout (form : CheckoutForm) (utcnow : datetime)
    (st : State) : Response * State :=
  match cart (session st) with
  | None | Some [] => (redirect ep_cart None, st)
  | Some items =>
      if negb (forallb truthy
                 [customer_name form; customer_phone form;
                  pickup_date form; pickup_time_slot form])
      then
        (redirect ep_checkout
           (Some ("Please fill all required fields", "error")), st)
      else
        match strptime (default "" (pickup_date form) +:+ " " +:+
                        default "" (pickup_time_slot form))
                "%Y-%m-%d %I:%M %p" with
        | None =>
            (redirect ep_checkout (Some ("Invalid pickup time", "error")),
             st)
        | Some pickup_datetime =>
            match validate_stock (products (db st)) items 0 [] with
            | None => (OutOfStock, st)
            | Some (total, cart_items) =>
                let order_id := next_id (orders (db st)) in
                let order :=
                  Order.mk (default "" (customer_name form))
                    (or_None (customer_email form))
                    (default "" (customer_phone form))
                    pickup_datetime total "pending" utcnow in
                let d :=
                  mk_db (products (db st))
                    (<[order_id := order]> (orders (db st)))
                    (order_items (db st)) in
                (redirect (ep_order_confirmation order_id)
                   (Some ("Order placed successfully! Order ID: " +:+
                          str_int order_id, "success")),
                 set_cart None (set_db (create_items order_id cart_items d) st))
            end
        end
  end.
End Checkout.

(** ** Seller routes *)

(** The decorator of the seller routes. *)
Definition seller_login_required (f : State -> Response * State) (st : State)
    : Response * State :=
  match seller_id (session st) with
  | None => (redirect ep_seller_login None, st)
  | Some _ => f st
  end.

(** The fields of the product form after [float(...)], and the path under
    which an accepted upload was saved. *)
Record ProductForm := mk_product_form
  { pf_name : string;
    pf_description : option string;
    pf_price : Q;
    pf_original_price : option Q;
    pf_quantity : Q;
    pf_unit_type : option string;
    pf_image : option string }.

Definition add_product (form : ProductForm) (utcnow : datetime)
    : State -> Response * State :=
  seller_login_required (fun st =>
    let product :=
      Product.mk (pf_name form) (pf_description form) (pf_price form)
        (pf_original_price form) (pf_quantity form)
        (default "quantity" (pf_unit_type form)) (pf_image form) utcnow in
    (redirect ep_seller_products
       (Some ("Product added successfully", "success")),
     set_db (mk_db (<[next_id (products (db st)) := product]>
                      (products (db st)))
               (orders (db st)) (order_items (db st))) st)).

Definition update_product (id : Z) (form : ProductForm)
    : State -> Response * State :=
  seller_login_required (fun st =>
    match products (db st) !! id with
    | None => (abort_404, st)
    | Some product =>
        let product' :=
          Product.mk (pf_name form) (pf_description form) (pf_price form)
            (pf_original_price form) (pf_quantity form)
            (default "quantity" (pf_unit_type form))
            (match pf_image form with
             | Some path => Some path
             | None => Product.image_path product
             end)
            (Product.created_at product) in
        (redirect ep_seller_products
           (Some ("Product updated successfully", "success")),
         set_db (mk_db (<[id := product']> (products (db st)))
                   (orders (db st)) (order_items (db st))) st)
    end).

Definition mark_out_of_stock (id : Z) : State -> Response * State :=
  seller_login_required (fun st =>
    match products (db st) !! id with
    | None => (abort_404, st)
    | Some product =>
        (redirect ep_seller_products
           (Some ("Product '" +:+ Product.name product +:+
                  "' marked as out of stock", "success")),
         set_db (mk_db (<[id := Product.set_quantity_available 0.0 product]>
                          (products (db st)))
                   (orders (db st)) (order_items (db st))) st)
    end).

Definition valid_statuses : list string := ["pending"; "ready"; "completed"].

(** [new_status in ['pending', 'ready', 'completed']] *)
Definition status_in (new_status : option string) (l : list string) : bool :=
  match new_status with
  | Some s => existsb (String.eqb s) l
  | None => false
  end.

Definition update_order_status (id : Z) (new_status : option string)
    : State -> Response * State :=
  seller_login_required (fun st =>
    match orders (db st) !! id with
    | None => (abort_404, st)
    | Some order =>
        if status_in new_status valid_statuses then
          (redirect ep_seller_orders
             (Some ("Order status updated successfully", "success")),
           set_db (mk_db (products (db st))
                     (<[id := Order.set_status (default "" new_status) order]>
                        (orders (db st)))
                     (order_items (db st))) st)
        else (redirect ep_seller_orders None, st)
    end).

Definition delete_order (id : Z) : State -> Response * State :=
  seller_login_required (fun st =>
    match orders (db st) !! id with
    | None => (abort_404, st)
    | Some order =>
        (redirect ep_seller_orders
           (Some ("Order deleted successfully", "success")),
         set_db (mk_db (products (db st))
                   (delete id (orders (db st)))
                   (filter (fun it => OrderItem.order_id it ≠ id)
                      (order_items (db st)))) st)
    end).

(** ** The requests of the system *)

Inductive Request :=
| POST_cart_add (product_id : ProductId) (quantity : Q)
| POST_cart_update (product_id : ProductId) (quantity : Q)
| POST_cart_remove (product_id : ProductId)
| POST_checkout (form : CheckoutForm) (utcnow : datetime)
| POST_products_add (form : ProductForm) (utcnow : datetime)
| POST_products_update (id : Z) (form : ProductForm)
| POST_products_out_of_stock (id : Z)
| POST_orders_update_status (id : Z) (new_status : option string)
| POST_orders_delete (id : Z).

Definition handle (strptime : string -> string -> option datetime)
    (req : Request) : State -> Response * State :=
  match req with
  | POST_cart_add product_id quantity => add_to_cart product_id quantity
  | POST_cart_update product_id quantity => update_cart product_id quantity
  | POST_cart_remove product_id => remove_from_cart product_id
  | POST_checkout form utcnow => process_checkout strptime form utcnow
  | POST_products_add form utcnow => add_product form utcnow
  | POST_products_update id form => update_product id form
  | POST_products_out_of_stock id => mark_out_of_stock id
  | POST_orders_update_status id new_status =>
      update_order_status id new_status
  | POST_orders_delete id => delete_order id
  end.

(** ** Vocabulary of the statements *)

Definition cart_ids (c : list CartItem.t) : list ProductId :=
  CartItem.product_id <$> c.

(** The keys of the products that the lines of a cart name. *)
Definition cart_keys (c : list CartItem.t) : list Z :=
  key_of <$> cart_ids c.

(** The cart of a session, empty when the key is absent (as [cart_count]
    and the cart page read it). *)
Definition cart_of (st : State) : list CartItem.t :=
  default [] (cart (session st)).

(** The first line of a cart whose ['product_id'] equals the given one. *)
Definition line_of (product_id : ProductId) (c : list CartItem.t)
    : option CartItem.t :=
  find (fun item => py_eq (CartItem.product_id item) product_id) c.

(** A line that the stock check of the checkout refuses. *)
Definition refused (catalog : gmap Z Product.t) (item : CartItem.t) : Prop :=
  match catalog !! key_of (CartItem.product_id item) with
  | None => True
  | Some product =>
      Product.quantity_available product <= 0 \/
      Product.quantity_available product < CartItem.quantity item
  end.

(** The running total of the first loop of [process_checkout]. *)
Definition cart_total (c : list CartItem.t) : Q :=
  fold_left
    (fun total item =>
       fadd total (fmul (CartItem.price item) (CartItem.quantity item)))
    c 0.

(** The sum of [item.quantity * item.price] over the items, added up from
    0 in their order. *)
Definition sum_subtotals (items : list OrderItem.t) : Q :=
  fold_left
    (fun acc it =>
       fadd acc (fmul (OrderItem.quantity it) (OrderItem.price it)))
    items 0.

(** The stock of the product of one key once the lines of a cart that
    name it are taken off, one after the other in the order of the cart. *)
Definition stock_after (key : Z) (c : list CartItem.t) (stock : Q) : Q :=
  fold_left
    (fun s item =>
       if Z.eqb (key_of (CartItem.product_id item)) key
       then fsub s (CartItem.quantity item) else s)
    c stock.

(** The entry of [cart_items] that the first loop makes of a cart line. *)
Definition checked_of (item : CartItem.t) : CheckedItem :=
  mk_checked (key_of (CartItem.product_id item)) (CartItem.quantity item)
    (CartItem.price item)
    (fmul (CartItem.price item) (CartItem.quantity item)).

(** The stock updates of the second loop, in its order. *)
Definition take_stock (cart_items : list CheckedItem)
    (catalog : gmap Z Product.t) : gmap Z Product.t :=
  fold_left
    (fun m item => alter (decrement (ci_quantity item)) (ci_product item) m)
    cart_items catalog.

(** [p'] is [p] in every column but the stock. *)
Definition same_but_stock (p p' : Product.t) : Prop :=
  Product.name p' = Product.name p /\
  Product.description p' = Product.description p /\
  Product.price p' = Product.price p /\
  Product.original_price p' = Product.original_price p /\
  Product.unit_type p' = Product.unit_type p /\
  Product.image_path p' = Product.image_path p /\
  Product.created_at p' = Product.created_at p.

(** [i'] is the cart line [i] in every field but the quantity. *)
Definition same_but_quantity (i i' : CartItem.t) : Prop :=
  CartItem.product_id i' = CartItem.product_id i /\
  CartItem.price i' = CartItem.price i /\
  CartItem.name i' = CartItem.name i /\
  CartItem.image_path i' = CartItem.image_path i /\
  CartItem.unit_type i' = CartItem.unit_type i.

(** The order item the checkout makes of a cart line. *)
Definition item_of_line (oid : Z) (line : CartItem.t) (it : OrderItem.t)
    : Prop :=
  OrderItem.order_id it = oid /\
  OrderItem.product_id it = key_of (CartItem.product_id line) /\
  OrderItem.quantity it = CartItem.quantity line /\
  OrderItem.price it = CartItem.price line.

(** The input gate and the pickup time of a checkout form. *)
Definition form_ok (strptime : string -> string -> option datetime)
    (form : CheckoutForm) : Prop :=
  truthy (customer_name form) = true /\
  truthy (customer_phone form) = true /\
  truthy (pickup_date form) = true /\
  truthy (pickup_time_slot form) = true /\
  is_Some (strptime (default "" (pickup_date form) +:+ " " +:+
                     default "" (pickup_time_slot form))
             "%Y-%m-%d %I:%M %p").

(** Every order item belongs to an order of the table. *)
Definition items_owned (d : Database) : Prop :=
  Forall (fun it => is_Some (orders d !! OrderItem.order_id it))
    (order_items d).

Definition stock_nonneg (d : Database) : Prop :=
  map_Forall (fun _ p => 0 <= Product.quantity_available p) (products d).

(** No two lines of the cart hold equal ['product_id'] values. *)
Definition cart_unique (st : State) : Prop := NoDup (cart_ids (cart_of st)).

(** No two lines of the cart name the same product. *)
Definition distinct_products (st : State) : Prop :=
  NoDup (cart_keys (cart_of st)).

(** The quantity a seller request submits is not negative. *)
Definition submitted_nonneg (req : Request) : Prop :=
  match req with
  | POST_products_add form _ => 0 <= pf_quantity form
  | POST_products_update _ form => 0 <= pf_quantity form
  | _ => True
  end.

(** The cart a checkout request would commit names a different product on
    each line. *)
Definition lines_distinct (req : Request) (st : State) : Prop :=
  match req with
  | POST_checkout _ _ => distinct_products st
  | _ => True
  end.

(** [z] is [q] without its fractional part. *)
Definition truncation (q : Q) (z : Z) : Prop :=
  (0 <= q -> inject_Z z <= q /\ q < inject_Z z + 1) /\
  (q <= 0 -> q <= inject_Z z /\ inject_Z z - 1 < q).

Definition whole (q : Q) : Prop := exists n : Z, q == inject_Z n.


(** ** Read-only cart routes *)

(** [cart_count]: the number the route puts under ['count']. *)
Definition cart_count (st : State) : nat :=
  length (default [] (cart (session st))).

(** An entry of the list [cart_items] that the cart page renders. *)
Record CartPageItem := mk_page_item
  { cp_product_id : Z;
    cp_name : string;
    cp_price : Q;
    cp_quantity : Q;
    cp_image_path : option string;
    cp_subtotal : Q;
    cp_max_quantity : Q;
    cp_unit_type : string }.

(** The loop of [cart]: a line whose product is gone is skipped. *)
Definition cart_items (st : State) : list CartPageItem :=
  match cart (session st) with
  | None => []
  | Some c =>
      omap
        (fun item =>
           match products (db st) !! key_of (CartItem.product_id item) with
           | Some product =>
               Some (mk_page_item (key_of (CartItem.product_id item))
                       (Product.name product) (CartItem.price item)
                       (CartItem.quantity item) (Product.image_path product)
                       (fmul (CartItem.price item) (CartItem.quantity item))
                       (Product.quantity_available product)
                       (Product.unit_type product))
           | None => None
           end)
        c
  end.

(** ** Uploads ([allowed_file]) *)

Definition ALLOWED_EXTENSIONS : list string :=
  ["png"; "jpg"; "jpeg"; "gif"; "webp"].

(** ['.' in filename] *)
Fixpoint contains_dot (s : string) : bool :=
  match s with
  | EmptyString => false
  | String c rest => Ascii.eqb c "."%char || contains_dot rest
  end.

(** [filename.rsplit('.', 1)[1]]: the text after the last dot; [None]
    stands for the index error on a name without a dot. *)
Fixpoint rsplit_dot (s : string) : option string :=
  match s with
  | EmptyString => None
  | String c rest =>
      match rsplit_dot rest with
      | Some ext => Some ext
      | None => if Ascii.eqb c "."%char then Some rest else None
      end
  end.

(** [str.lower] on the letters A to Z. *)
Definition lower_char (c : ascii) : ascii :=
  let n := N_of_ascii c in
  if (65 <=? n)%N && (n <=? 90)%N then ascii_of_N (n + 32) else c.

Fixpoint lower (s : string) : string :=
  match s with
  | EmptyString => EmptyString
  | String c rest => String (lower_char c) (lower rest)
  end.

Definition allowed_file (filename : string) : bool :=
  contains_dot filename &&
  match rsplit_dot filename with
  | Some ext => existsb (String.eqb (lower ext)) ALLOWED_EXTENSIONS
  | None => false
  end.

(** ** Pickup time slots ([sync_time_slots]) *)

Definition desired_time_slots : list string :=
  ["7:00 AM"; "8:00 AM"; "9:00 AM"; "10:00 AM"; "11:00 AM"; "12:00 PM";
   "1:00 PM"; "4:00 PM"; "5:00 PM"; "6:00 PM"; "7:00 PM"; "8:00 PM"].

(** The table [pickup_time_slots], by its unique column [time_slot]: the
    value is [is_available].  The integer key of a row is read nowhere. *)
Definition sync_time_slots (table : gmap string bool) : gmap string bool :=
  let existing_slot_values := dom table in
  let kept :=
    filter (fun row => row.1 ∈ desired_time_slots) table in
  let added :=
    foldl
      (fun t slot_value =>
         if decide (slot_value ∈ existing_slot_values) then t
         else <[slot_value := true]> t)
      kept desired_time_slots in
  foldl
    (fun t slot_value =>
       match t !! slot_value with
       | Some _ => <[slot_value := true]> t
       | None => t
       end)
    added desired_time_slots.

(** ** Seller dashboard: the counts *)

Definition total_products (d : Database) : nat := size (products d).

Definition total_orders (d : Database) : nat := size (orders d).

Definition pending_orders (d : Database) : nat :=
  size (filter (fun row => Order.status row.2 = "pending") (orders d)).

(** ** Vocabulary of the further statements *)

(** The requests behind [seller_login_required]. *)
Definition is_seller_request (req : Request) : bool :=
  match req with
  | POST_products_add _ _
  | POST_products_update _ _
  | POST_products_out_of_stock _
  | POST_orders_update_status _ _
  | POST_orders_delete _ => true
  | _ => false
  end.

(** The state after a sequence of requests. *)
Definition run (strptime : string -> string -> option datetime)
    (reqs : list Request) (st : State) : State :=
  foldl (fun s req => (handle strptime req s).2) st reqs.

(** ** Sample states *)

Definition noon : datetime := mk_datetime 2024 1 15 12 0 0.

Definition apples (stock : Q) : Product.t :=
  Product.mk "Fresh Apples" (Some "Crisp and juicy red apples.") 10.0
    (Some 15.0) stock "kg" (Some "uploads/products/apples.svg") noon.

Definition apples_line (quantity : Q) : CartItem.t :=
  CartItem.mk (int_id 1) quantity 10.0 "Fresh Apples"
    (Some "uploads/products/apples.svg") "kg".

(** A shop with one product, of key 1, and a customer session. *)
Definition shop (stock : Q) (c : option (list CartItem.t)) : State :=
  mk_state (mk_db {[ 1%Z := apples stock ]} ∅ []) (mk_session c None).

(** The same shop seen from the seller's session. *)
Definition back_office (stock : Q) : State :=
  mk_state (mk_db {[ 1%Z := apples stock ]} ∅ []) (mk_session None (Some 1%Z)).

(** A shop whose only order, of key 1, has one item. *)
Definition shop_with_order (st : string) : State :=
  mk_state
    (mk_db {[ 1%Z := apples 3 ]}
       {[ 1%Z := Order.mk "Asha" None "555" noon 20 st noon ]}
       [OrderItem.mk 1 1 1 2 10.0])
    (mk_session None (Some 1%Z)).

Definition a_form : CheckoutForm :=
  mk_form (Some "Asha") None (Some "555") (Some "2024-01-15") (Some "12:00 PM").

(** A stand-in for [strptime] that accepts every text. *)
Definition any_time (text format : string) : option datetime := Some noon.

Definition restock (quantity : Q) : ProductForm :=
  mk_product_form "Fresh Apples" None 10.0 None quantity (Some "kg") None.

(** A line for a product, of key 2, that the catalog does not hold. *)
Definition eggs_line : CartItem.t :=
  CartItem.mk (int_id 2) 1 70.0 "Brown Eggs" (Some "uploads/products/eggs.svg")
    "quantity".

(** The line of apples that a request with the id ["1"] makes. *)
Definition apples_text_line (quantity : Q) : CartItem.t :=
  CartItem.mk (str_id 1) quantity 10.0 "Fresh Apples"
    (Some "uploads/products/apples.svg") "kg".

Definition eggs (stock : Q) : Product.t :=
  Product.mk "Brown Eggs" (Some "Farm fresh brown eggs.") 70.0 (Some 85.0)
    stock "quantity" (Some "uploads/products/eggs.svg") noon.

(** A shop with two products, of keys 1 and 2, and a customer session. *)
Definition market (c : option (list CartItem.t)) : State :=
  mk_state (mk_db (<[ 2%Z := eggs 30 ]> {[ 1%Z := apples 5 ]}) ∅ [])
    (mk_session c None).

Definition seller_session : Session := mk_session None (Some 1%Z).

(** ** Numbers *)

Lemma Qgtb_lt (a b : Q) : Qgtb a b = true <-> b < a.
Proof.
  unfold Qgtb. rewrite negb_true_iff, <- not_true_iff_false, Qle_bool_iff.
  split; [apply Qnot_le_lt | apply Qlt_not_le].
Qed.

Lemma Qgtb_le (a b : Q) : Qgtb a b = false <-> a <= b.
Proof.
  unfold Qgtb. rewrite negb_false_iff. apply Qle_bool_iff.
Qed.

Lemma Qeq_bool_false (a b : Q) : Qeq_bool a b = false <-> ~ a == b.
Proof.
  split; [apply Qeq_bool_neq |].
  intros H. destruct (Qeq_bool a b) eqn:E; [| reflexivity].
  apply Qeq_bool_eq in E. contradiction.
Qed.

(** Rounding reads the number, not the fraction that writes it. *)
Lemma round64_proper (x y : Q) : x == y -> round64 x = round64 y.
Proof. intros H. unfold round64. rewrite (Qred_complete _ _ H). reflexivity. Qed.

Lemma fmul_comm (a b : Q) : fmul a b = fmul b a.
Proof. apply round64_proper, Qmult_comm. Qed.

Lemma pow2_pos (u : Z) : 0 < pow2 u.
Proof.
  destruct u as [|p|p]; [reflexivity | | reflexivity].
  unfold pow2, Qlt, inject_Z. cbn [Qnum Qden].
  pose proof (Z.pow_pos_nonneg 2 (Z.pos p)). lia.
Qed.

Lemma nearest_even_nonneg (n : Z) (d : positive) :
  (0 <= n)%Z -> (0 <= nearest_even n d)%Z.
Proof.
  intros Hn. unfold nearest_even.
  assert (0 <= n / Z.pos d)%Z by (apply Z.div_pos; lia).
  destruct (2 * (n mod Z.pos d) ?= Z.pos d)%Z; [| lia | lia].
  destruct (Z.even _); lia.
Qed.

Lemma round64_pos_nonneg (n d : positive) : 0 <= round64_pos n d.
Proof.
  unfold round64_pos. rewrite Qred_correct.
  apply Qmult_le_0_compat; [| apply Qlt_le_weak, pow2_pos].
  change 0 with (inject_Z 0). rewrite <- Zle_Qle.
  apply nearest_even_nonneg.
  pose proof (pow2_pos (- Z.max (floor_log2 n d - 52) (-1074))) as Hp.
  unfold Qlt in Hp. simpl in Hp. rewrite Z.mul_1_r in Hp.
  simpl. lia.
Qed.

(** A float operation whose exact result is not negative gives a result
    that is not negative. *)
Lemma round64_nonneg (x : Q) : 0 <= x -> 0 <= round64 x.
Proof.
  intros Hx. rewrite <- (Qred_correct x) in Hx. unfold round64.
  destruct (Qred x) as [[|n|n] d].
  - apply Qle_refl.
  - apply round64_pos_nonneg.
  - exfalso. unfold Qle in Hx. simpl in Hx. lia.
Qed.

Lemma fsub_nonneg (a b : Q) : b <= a -> 0 <= fsub a b.
Proof.
  intros H. apply round64_nonneg. unfold Qminus.
  rewrite <- Qle_minus_iff. exact H.
Qed.

Lemma py_eq_spec (a b : ProductId) : reflect (a = b) (py_eq a b).
Proof.
  destruct a as [m|m], b as [n|n]; simpl;
    try (constructor; discriminate);
    destruct (Z.eqb_spec m n); constructor; congruence.
Qed.

Lemma py_eq_refl (a : ProductId) : py_eq a a = true.
Proof. destruct (py_eq_spec a a); [reflexivity | contradiction]. Qed.

(** ** Carts *)

Lemma line_of_None (pid : ProductId) (c : list CartItem.t) :
  line_of pid c = None <-> pid ∉ cart_ids c.
Proof.
  unfold line_of, cart_ids. induction c as [|item c IH]; simpl.
  - split; [intros _; apply not_elem_of_nil | reflexivity].
  - rewrite not_elem_of_cons. destruct (py_eq_spec (CartItem.product_id item) pid).
    + split; [discriminate | intros [Hne _]; congruence].
    + rewrite IH. split; [intros H; split; [congruence | exact H] | tauto].
Qed.

Lemma line_of_Some (pid : ProductId) (c : list CartItem.t) (item : CartItem.t) :
  line_of pid c = Some item ->
  exists l1 l2 : list CartItem.t,
    c = (l1 ++ item :: l2)%list /\ (pid ∉ cart_ids l1) /\
    CartItem.product_id item = pid.
Proof.
  unfold line_of, cart_ids. induction c as [|x c IH]; simpl; [discriminate |].
  destruct (py_eq_spec (CartItem.product_id x) pid) as [E|E]; intros H.
  - injection H as ->. exists [], c. split; [reflexivity |].
    split; [apply not_elem_of_nil | exact E].
  - destruct (IH H) as (l1 & l2 & -> & Hn & Hp).
    exists (x :: l1), l2. split; [reflexivity |].
    split; [| exact Hp]. simpl. rewrite not_elem_of_cons. split; [congruence | exact Hn].
Qed.


Lemma merge_item_absent (c : list CartItem.t) (pid : ProductId) (q a : Q) :
  pid ∉ cart_ids c -> merge_item c pid q a = item_not_found.
Proof.
  unfold cart_ids. induction c as [|x c IH]; simpl; [reflexivity |].
  rewrite not_elem_of_cons. intros [Hne Hn].
  destruct (py_eq_spec (CartItem.product_id x) pid); [congruence |].
  rewrite (IH Hn). reflexivity.
Qed.

Lemma merge_item_first (l1 l2 : list CartItem.t) (item : CartItem.t)
    (pid : ProductId) (q a : Q) :
  pid ∉ cart_ids l1 -> CartItem.product_id item = pid ->
  merge_item (l1 ++ item :: l2) pid q a =
  if Qgtb (fadd (CartItem.quantity item) q) a then merge_insufficient
  else merged (l1 ++ CartItem.set_quantity (fadd (CartItem.quantity item) q)
                       item :: l2).
Proof.
  unfold cart_ids. intros Hn Hp. induction l1 as [|x l1 IH]; simpl.
  - rewrite Hp, py_eq_refl. reflexivity.
  - simpl in Hn. rewrite not_elem_of_cons in Hn. destruct Hn as [Hne Hn].
    destruct (py_eq_spec (CartItem.product_id x) pid); [congruence |].
    rewrite (IH Hn). destruct (Qgtb _ a); reflexivity.
Qed.

Lemma set_item_absent (c : list CartItem.t) (pid : ProductId) (q : Q) :
  pid ∉ cart_ids c -> set_item c pid q = c.
Proof.
  unfold cart_ids. induction c as [|x c IH]; simpl; [reflexivity |].
  rewrite not_elem_of_cons. intros [Hne Hn].
  destruct (py_eq_spec (CartItem.product_id x) pid); [congruence |].
  rewrite (IH Hn). reflexivity.
Qed.

Lemma set_item_first (l1 l2 : list CartItem.t) (item : CartItem.t)
    (pid : ProductId) (q : Q) :
  pid ∉ cart_ids l1 -> CartItem.product_id item = pid ->
  set_item (l1 ++ item :: l2) pid q =
  if Qeq_bool q 0 then (l1 ++ l2)%list
  else (l1 ++ CartItem.set_quantity q item :: l2)%list.
Proof.
  unfold cart_ids. intros Hn Hp. induction l1 as [|x l1 IH]; simpl.
  - rewrite Hp, py_eq_refl. reflexivity.
  - simpl in Hn. rewrite not_elem_of_cons in Hn. destruct Hn as [Hne Hn].
    destruct (py_eq_spec (CartItem.product_id x) pid); [congruence |].
    rewrite (IH Hn). destruct (Qeq_bool q 0); reflexivity.
Qed.

Lemma cart_ids_app (l1 l2 : list CartItem.t) :
  cart_ids (l1 ++ l2) = (cart_ids l1 ++ cart_ids l2)%list.
Proof. unfold cart_ids. apply fmap_app. Qed.

Lemma cart_ids_set_quantity (l1 l2 : list CartItem.t) (item : CartItem.t)
    (q : Q) :
  cart_ids (l1 ++ CartItem.set_quantity q item :: l2) =
  cart_ids (l1 ++ item :: l2).
Proof. rewrite !cart_ids_app. reflexivity. Qed.

Lemma cart_ids_filter (pid : ProductId) (c : list CartItem.t) :
  cart_ids (filter (fun item => CartItem.product_id item ≠ pid) c) =
  filter (fun i => i ≠ pid) (cart_ids c).
Proof.
  unfold cart_ids. induction c as [|x c IH]; [reflexivity |].
  rewrite fmap_cons, !filter_cons.
  destruct (decide (CartItem.product_id x ≠ pid));
    [rewrite fmap_cons |]; rewrite IH; reflexivity.
Qed.

Lemma filter_absent (pid : ProductId) (c : list CartItem.t) :
  pid ∉ cart_ids c ->
  filter (fun item => CartItem.product_id item ≠ pid) c = c.
Proof.
  unfold cart_ids. induction c as [|x c IH]; simpl; [reflexivity |].
  rewrite not_elem_of_cons. intros [Hne Hn]. rewrite filter_cons.
  destruct (decide (CartItem.product_id x ≠ pid)) as [_|Heq].
  - rewrite (IH Hn). reflexivity.
  - exfalso. apply Heq. intros E. apply Hne. symmetry. exact E.
Qed.

Lemma set_cart_same (st : State) (c : option (list CartItem.t)) :
  cart (session st) = c -> set_cart c st = st.
Proof. destruct st as [d [c0 s]]. simpl. intros ->. reflexivity. Qed.

Lemma set_cart_twice (st : State) (c c0 : option (list CartItem.t)) :
  set_cart c (set_cart c0 st) = set_cart c st.
Proof. reflexivity. Qed.

Lemma NoDup_set_item (c : list CartItem.t) (pid : ProductId) (q : Q) :
  NoDup (cart_ids c) -> NoDup (cart_ids (set_item c pid q)).
Proof.
  intros Hnd. destruct (line_of pid c) as [item|] eqn:E.
  - destruct (line_of_Some _ _ _ E) as (l1 & l2 & -> & Hn & Hp).
    rewrite (set_item_first _ _ _ _ _ Hn Hp).
    destruct (Qeq_bool q 0).
    + rewrite cart_ids_app in *. simpl in Hnd.
      apply NoDup_app in Hnd as (H1 & H2 & H3).
      apply NoDup_cons in H3 as [_ H3]. apply NoDup_app.
      split; [exact H1 |]. split; [| exact H3].
      intros x Hx Hx2. apply (H2 x Hx). apply elem_of_cons. right. exact Hx2.
    + rewrite cart_ids_set_quantity. exact Hnd.
  - apply line_of_None in E. rewrite (set_item_absent _ _ _ E). exact Hnd.
Qed.

Lemma set_quantity_spec (q : Q) (item : CartItem.t) :
  CartItem.quantity (CartItem.set_quantity q item) = q /\
  same_but_quantity item (CartItem.set_quantity q item).
Proof. destruct item. repeat split. Qed.

Lemma add_to_cart_unfold (pid : ProductId) (q : Q) (st : State)
    (product : Product.t) :
  products (db st) !! key_of pid = Some product ->
  add_to_cart pid q st =
  if Qgtb q (Product.quantity_available product) then (InsufficientStock, st)
  else
    match merge_item (cart_of st) pid q (Product.quantity_available product)
    with
    | merge_insufficient => (InsufficientStock, st)
    | merged c' =>
        (jsonify (json_success_count (length c')) 200, set_cart (Some c') st)
    | item_not_found =>
        let c' :=
          (cart_of st ++
           [CartItem.mk pid q (Product.price product) (Product.name product)
              (Product.image_path product) (Product.unit_type product)])%list in
        (jsonify (json_success_count (length c')) 200, set_cart (Some c') st)
    end.
Proof.
  intros Hp. unfold add_to_cart, cart_of. rewrite Hp.
  destruct (Qgtb q _); [reflexivity |].
  destruct (cart (session st)) as [c|] eqn:Ec; simpl.
  - rewrite Ec. reflexivity.
  - reflexivity.
Qed.

(** X29: with the product in the catalog, [add_to_cart] answers
    InsufficientStock exactly when the requested quantity, or the float sum
    of it and the quantity of the first line whose ['product_id'] equals the
    submitted one, exceeds the stock, and then changes nothing; otherwise
    it appends a line with the submitted id, the requested quantity and the
    product's price, name, image and unit, or replaces the quantity of that
    line by the float sum and keeps its other fields and every other line;
    a cart whose ['product_id'] values are pairwise different stays so. *)
Theorem add_to_cart_spec (pid : ProductId) (q : Q) (st : State)
    (product : Product.t) :
  products (db st) !! key_of pid = Some product ->
  let available := Product.quantity_available product in
  let r := add_to_cart pid q st in
  (r.1 = InsufficientStock <->
     available < q \/
     exists item, line_of pid (cart_of st) = Some item /\
                  available < fadd (CartItem.quantity item) q) /\
  (r.1 = InsufficientStock -> r.2 = st) /\
  (r.1 <> InsufficientStock ->
     exists c' : list CartItem.t,
       r = (jsonify (json_success_count (length c')) 200,
            set_cart (Some c') st) /\
       match line_of pid (cart_of st) with
       | None =>
           c' = (cart_of st ++
                 [CartItem.mk pid q (Product.price product)
                    (Product.name product) (Product.image_path product)
                    (Product.unit_type product)])%list
       | Some item =>
           exists (l1 l2 : list CartItem.t) (item' : CartItem.t),
             cart_of st = (l1 ++ item :: l2)%list /\
             (pid ∉ cart_ids l1) /\
             c' = (l1 ++ item' :: l2)%list /\
             CartItem.quantity item' = fadd (CartItem.quantity item) q /\
             same_but_quantity item item'
       end) /\
  (cart_unique st -> cart_unique r.2).
Proof.
  intros Hp available r. subst r.
  pose proof (add_to_cart_unfold _ q _ _ Hp) as Hr. fold available in Hr.
  destruct (Qgtb q available) eqn:Eq.
  { apply Qgtb_lt in Eq. rewrite Hr. simpl. repeat split; auto.
    intros H. exfalso. apply H. reflexivity. }
  apply Qgtb_le in Eq.
  destruct (line_of pid (cart_of st)) as [item|] eqn:El.
  - destruct (line_of_Some _ _ _ El) as (l1 & l2 & Hc & Hn & Hi).
    rewrite Hc, (merge_item_first _ _ _ _ _ _ Hn Hi) in Hr.
    destruct (Qgtb (fadd (CartItem.quantity item) q) available) eqn:Em;
      rewrite Hr; simpl.
    + apply Qgtb_lt in Em. repeat split; auto.
      * intros _. right. exists item. auto.
      * intros H. exfalso. apply H. reflexivity.
    + apply Qgtb_le in Em. repeat split.
      * discriminate.
      * intros [H | (item' & Hi' & H)].
        -- exfalso. exact (Qlt_not_le _ _ H Eq).
        -- injection Hi' as <-. exfalso. exact (Qlt_not_le _ _ H Em).
      * discriminate.
      * intros _. eexists. split; [reflexivity |].
        exists l1, l2, (CartItem.set_quantity (fadd (CartItem.quantity item) q)
                          item).
        pose proof (set_quantity_spec (fadd (CartItem.quantity item) q) item)
          as [Hq Hs].
        auto.
      * unfold cart_unique. intros Hnd. rewrite Hc in Hnd.
        unfold cart_of. simpl. rewrite cart_ids_set_quantity. exact Hnd.
  - pose proof El as Hn. apply line_of_None in Hn.
    rewrite (merge_item_absent _ _ _ _ Hn) in Hr. rewrite Hr. simpl.
    repeat split.
    + discriminate.
    + intros [H | (item' & Hi' & H)]; [| discriminate].
      exfalso. exact (Qlt_not_le _ _ H Eq).
    + discriminate.
    + intros _. eexists. split; reflexivity.
    + unfold cart_unique. intros Hnd. unfold cart_of at 1. simpl.
      rewrite cart_ids_app. apply NoDup_app. split; [exact Hnd |].
      split; [| apply NoDup_singleton].
      intros x Hx Hx2. simpl in Hx2. apply list_elem_of_singleton in Hx2.
      subst x. exact (Hn Hx).
Qed.

(** C6 (amended): [update_cart] on a session that holds a cart answers 404
    when the product is not in the catalog and InsufficientStock when the
    new quantity exceeds the stock, both without touching the cart and both
    also for a new quantity of zero; otherwise it removes the product's line
    when the new quantity is zero and replaces the line's quantity by the
    new quantity when it is not. *)
Theorem update_cart_spec (pid : ProductId) (q : Q) (st : State) (c : list CartItem.t) :
  cart (session st) = Some c ->
  match products (db st) !! key_of pid with
  | None => update_cart pid q st = (abort_404, st)
  | Some product =>
      (Product.quantity_available product < q ->
       update_cart pid q st = (InsufficientStock, st)) /\
      (q <= Product.quantity_available product ->
       exists c' : list CartItem.t,
         update_cart pid q st =
           (jsonify json_success 200, set_cart (Some c') st) /\
         (cart_unique st -> q == 0 -> pid ∉ cart_ids c') /\
         match line_of pid c with
         | None => c' = c
         | Some item =>
             exists l1 l2 : list CartItem.t,
               c = (l1 ++ item :: l2)%list /\
               (pid ∉ cart_ids l1) /\
               (q == 0 -> c' = (l1 ++ l2)%list) /\
               (~ q == 0 ->
                c' = (l1 ++ CartItem.set_quantity q item :: l2)%list)
         end)
  end.
Proof.
  intros Hc. unfold update_cart. rewrite Hc.
  destruct (products (db st) !! key_of pid) as [product|]; [| reflexivity].
  split.
  - intros Hlt. apply Qgtb_lt in Hlt. rewrite Hlt. reflexivity.
  - intros Hle. apply Qgtb_le in Hle. rewrite Hle.
    exists (set_item c pid q). split; [reflexivity |].
    destruct (line_of pid c) as [item|] eqn:El.
    + destruct (line_of_Some _ _ _ El) as (l1 & l2 & -> & Hn & Hi).
      rewrite (set_item_first _ _ _ _ _ Hn Hi). split.
      * unfold cart_unique, cart_of. rewrite Hc. simpl.
        intros Hnd Hz. apply Qeq_bool_iff in Hz. rewrite Hz.
        rewrite cart_ids_app in *. simpl in Hnd.
        apply NoDup_app in Hnd as (_ & _ & H3).
        apply NoDup_cons in H3 as [H3 _]. rewrite Hi in H3.
        rewrite elem_of_app. tauto.
      * exists l1, l2. repeat split; [exact Hn | |].
        -- intros Hz. apply Qeq_bool_iff in Hz. rewrite Hz. reflexivity.
        -- intros Hz. apply Qeq_bool_false in Hz. rewrite Hz. reflexivity.
    + apply line_of_None in El. rewrite (set_item_absent _ _ _ El).
      split; [intros _ _; exact El | reflexivity].
Qed.

(** C9 (amended): on a session that holds a cart, [remove_from_cart]
    succeeds, keeps exactly the lines of the other products, leaves the
    state as it is when the product has no line, and succeeds again when
    repeated; on a session without a cart it answers the error
    "Cart is empty" and changes nothing. *)
Theorem remove_from_cart_spec (pid : ProductId) (st : State) :
  let r := remove_from_cart pid st in
  match cart (session st) with
  | None => r = (CartIsEmpty, st)
  | Some c =>
      r.1 = jsonify json_success 200 /\
      db r.2 = db st /\
      cart (session r.2) =
        Some (filter (fun item => CartItem.product_id item ≠ pid) c) /\
      (pid ∉ cart_ids (cart_of r.2)) /\
      (pid ∉ cart_ids c -> r.2 = st) /\
      remove_from_cart pid r.2 = (jsonify json_success 200, r.2)
  end.
Proof.
  intros r. subst r. unfold remove_from_cart.
  destruct (cart (session st)) as [c|] eqn:Hc; [| reflexivity].
  simpl. repeat split.
  - unfold cart_of. simpl. rewrite cart_ids_filter.
    intros Hin. apply list_elem_of_filter in Hin as [Hne _].
    apply Hne. reflexivity.
  - intros Hn. rewrite (filter_absent _ _ Hn). apply set_cart_same. exact Hc.
  - f_equal. unfold set_cart. simpl. do 3 f_equal.
    apply filter_absent. rewrite cart_ids_filter.
    intros Hin. apply list_elem_of_filter in Hin as [Hne _].
    apply Hne. reflexivity.
Qed.

(** ** Orders in the back office *)

Lemma status_in_spec (s : string) (l : list string) :
  status_in (Some s) l = true <-> s ∈ l.
Proof.
  simpl. induction l as [|x l IH]; simpl.
  - split; [discriminate | intros H; inversion H].
  - rewrite orb_true_iff, IH, elem_of_cons, String.eqb_eq. reflexivity.
Qed.

(** C7: for a logged-in seller and an existing order, whatever its current
    status, a new status among pending, ready and completed is stored and
    nothing else changes; any other value, or none, leaves the state as it
    is and is answered by the same redirect, without a message. *)
Theorem update_order_status_spec (id sid : Z) (new_status : option string)
    (st : State) (order : Order.t) :
  seller_id (session st) = Some sid ->
  orders (db st) !! id = Some order ->
  let r := update_order_status id new_status st in
  (forall s : string,
     new_status = Some s -> s ∈ ["pending"; "ready"; "completed"] ->
     r.1 = redirect ep_seller_orders
             (Some ("Order status updated successfully", "success")) /\
     orders (db r.2) = <[id := Order.set_status s order]> (orders (db st)) /\
     Order.status <$> orders (db r.2) !! id = Some s /\
     products (db r.2) = products (db st) /\
     order_items (db r.2) = order_items (db st) /\
     session r.2 = session st) /\
  ((forall s : string,
      new_status = Some s -> s ∉ ["pending"; "ready"; "completed"]) ->
   r = (redirect ep_seller_orders None, st)).
Proof.
  intros Hs Ho r. subst r.
  unfold update_order_status, seller_login_required. rewrite Hs, Ho.
  split.
  - intros s -> Hin. apply status_in_spec in Hin.
    unfold valid_statuses. rewrite Hin. simpl.
    rewrite lookup_insert_eq. repeat split.
  - intros Hout. destruct new_status as [s|]; [| reflexivity].
    destruct (status_in (Some s) valid_statuses) eqn:E; [| reflexivity].
    apply status_in_spec in E. exfalso. exact (Hout s eq_refl E).
Qed.

(** C10: for a logged-in seller and an existing order, [delete_order]
    removes the order and every order item that belongs to it, keeps the
    other orders and order items, and leaves the table of products, hence
    every [quantity_available], exactly as it was. *)
Theorem delete_order_spec (id sid : Z) (st : State) (order : Order.t) :
  seller_id (session st) = Some sid ->
  orders (db st) !! id = Some order ->
  let r := delete_order id st in
  r.1 = redirect ep_seller_orders
          (Some ("Order deleted successfully", "success")) /\
  orders (db r.2) !! id = None /\
  (forall j : Z, j ≠ id -> orders (db r.2) !! j = orders (db st) !! j) /\
  items_of id (order_items (db r.2)) = [] /\
  (forall it : OrderItem.t,
     it ∈ order_items (db r.2) <->
     it ∈ order_items (db st) /\ OrderItem.order_id it ≠ id) /\
  products (db r.2) = products (db st) /\
  session r.2 = session st.
Proof.
  intros Hs Ho r. subst r.
  unfold delete_order, seller_login_required. rewrite Hs, Ho. simpl.
  repeat split.
  - apply lookup_delete_eq.
  - intros j Hj. apply lookup_delete_ne. congruence.
  - unfold items_of. induction (order_items (db st)) as [|x l IH];
      [reflexivity |].
    rewrite filter_cons. destruct (decide (OrderItem.order_id x ≠ id)) as [Hne|_].
    + rewrite filter_cons. destruct (decide (OrderItem.order_id x = id));
        [contradiction | exact IH].
    + exact IH.
  - apply list_elem_of_filter in H. tauto.
  - apply list_elem_of_filter in H. tauto.
  - intros [H1 H2]. apply list_elem_of_filter. tauto.
Qed.

(** ** Quantity display *)

Lemma py_int_whole (q : Q) (n : Z) : q == inject_Z n -> py_int q = n.
Proof.
  unfold py_int, Qeq. destruct q as [a d]. simpl. intros H.
  rewrite Z.mul_1_r in H. rewrite H. apply Z.quot_mul. discriminate.
Qed.

Lemma py_mod1_whole (q : Q) : Qeq_bool (py_mod1 q) 0 = true <-> whole q.
Proof.
  unfold py_mod1, whole. rewrite Qeq_bool_iff. split.
  - intros H. exists (Qfloor q).
    rewrite <- (Qplus_0_l (inject_Z (Qfloor q))), <- H. ring.
  - intros [n Hn]. rewrite (Qfloor_comp _ _ Hn), Qfloor_Z, Hn. ring.
Qed.

Lemma py_mod1_fraction (q : Q) : Qeq_bool (py_mod1 q) 0 = false <-> ~ whole q.
Proof.
  rewrite <- py_mod1_whole. destruct (Qeq_bool (py_mod1 q) 0); split;
    congruence.
Qed.

Lemma py_int_nonneg (q : Q) : 0 <= q -> py_int q = Qfloor q.
Proof.
  unfold py_int, Qle. destruct q as [a d]. simpl. intros H.
  apply Z.quot_div_nonneg; lia.
Qed.

Lemma py_int_nonpos (q : Q) : q <= 0 -> py_int q = Qceiling q.
Proof.
  unfold py_int, Qceiling, Qle. destruct q as [a d]. simpl. intros H.
  rewrite <- Z.quot_div_nonneg by lia.
  rewrite Z.quot_opp_l by discriminate. lia.
Qed.

(** [int] drops the fractional part, toward zero. *)
Lemma py_int_truncation (q : Q) : truncation q (py_int q).
Proof.
  split; intros H.
  - rewrite (py_int_nonneg _ H). split; [apply Qfloor_le |].
    rewrite <- (inject_Z_plus _ 1). apply Qlt_floor.
  - rewrite (py_int_nonpos _ H). split; [apply Qle_ceiling |].
    pose proof (Qceiling_lt q) as Hc.
    unfold Z.sub in Hc. rewrite inject_Z_plus in Hc. exact Hc.
Qed.

Lemma whole_not_fraction (q : Q) (n : Z) (a : Z) (d : positive) :
  q == inject_Z n -> (forall k : Z, (k * Z.pos d)%Z <> a) ->
  Qeq_bool q (a # d) = false.
Proof.
  intros Hq Hk. apply Qeq_bool_false. intros H. rewrite Hq in H.
  unfold Qeq in H. simpl in H. apply (Hk n). lia.
Qed.

(** The double that the literal [0.1] denotes. *)
Lemma py_float_0_1 :
  py_float 0.1 = 3602879701896397 # 36028797018963968.
Proof. vm_compute. reflexivity. Qed.

(** [q] is one of the literals of the chain of comparisons: the tests
    before it fail and its own succeeds. *)
Ltac special_value H :=
  repeat match goal with
  | |- context [Qeq_bool ?q ?v] =>
      first
        [ assert (Qeq_bool q v = false) as ->
            by (apply Qeq_bool_false; rewrite H; discriminate)
        | assert (Qeq_bool q v = true) as ->
            by (apply Qeq_bool_iff; rewrite H; reflexivity) ]
  end;
  reflexivity.

(** C8: [format_quantity] in kilograms renders 1, 0.75, 0.5, 0.25 and the
    float 0.1 as "1 kg", "750g", "500g", "250g" and "100g", any other whole
    number n as n followed by " kg", and any other value as the truncation
    of the float product of the value and 1000 followed by "g" (the float
    0.3 as "300g"); in any other unit it renders a whole number as that
    integer (3 as "3") and any other value as [str] of it (2.5 as
    "2.5"). *)
Theorem format_quantity_spec :
  (forall q, q == 1 -> format_quantity q "kg" = "1 kg") /\
  (forall q, q == 0.75 -> format_quantity q "kg" = "750g") /\
  (forall q, q == 0.5 -> format_quantity q "kg" = "500g") /\
  (forall q, q == 0.25 -> format_quantity q "kg" = "250g") /\
  (forall q, q == py_float 0.1 -> format_quantity q "kg" = "100g") /\
  (forall q n, q == inject_Z n -> n <> 1%Z ->
     format_quantity q "kg" = str_int n +:+ " kg") /\
  (forall q,
     ~ whole q -> ~ q == 0.75 -> ~ q == 0.5 -> ~ q == 0.25 ->
     ~ q == py_float 0.1 ->
     exists grams : Z,
       truncation (fmul q 1000) grams /\
       format_quantity q "kg" = str_int grams +:+ "g") /\
  (forall q u n, u <> "kg" -> q == inject_Z n ->
     format_quantity q u = str_int n) /\
  (forall q u, u <> "kg" -> ~ whole q -> format_quantity q u = str_float q) /\
  format_quantity 1.0 "kg" = "1 kg" /\
  format_quantity 0.5 "kg" = "500g" /\
  format_quantity (py_float 0.1) "kg" = "100g" /\
  format_quantity (py_float 0.3) "kg" = "300g" /\
  format_quantity (py_float 1.001) "kg" = "1000g" /\
  format_quantity 3 "quantity" = "3" /\
  format_quantity 2.5 "quantity" = "2.5".
Proof.
  repeat match goal with |- _ /\ _ => split end.
  10-16: vm_compute; reflexivity.
  1-5: intros q H; unfold format_quantity; rewrite py_float_0_1 in *; simpl;
    special_value H.
  - intros q n H Hn. unfold format_quantity. rewrite py_float_0_1. simpl.
    assert (Qeq_bool q 1.0 = false) as ->.
    { apply Qeq_bool_false. rewrite H. intros E. apply Hn.
      unfold Qeq in E. simpl in E. lia. }
    rewrite !(whole_not_fraction q n) by (exact H || (intros k; lia)).
    assert (Qeq_bool (py_mod1 q) 0 = true) as ->.
    { apply py_mod1_whole. exists n. exact H. }
    rewrite (py_int_whole _ _ H). reflexivity.
  - intros q Hw H1 H2 H3 H4. unfold format_quantity. simpl.
    assert (Qeq_bool q 1.0 = false) as ->.
    { apply Qeq_bool_false. intros E. apply Hw. exists 1%Z. rewrite E.
      reflexivity. }
    apply Qeq_bool_false in H1, H2, H3, H4. rewrite H1, H2, H3, H4.
    apply py_mod1_fraction in Hw. rewrite Hw.
    exists (py_int (fmul q 1000)).
    split; [apply py_int_truncation | reflexivity].
  - intros q u n Hu H. unfold format_quantity.
    apply String.eqb_neq in Hu. rewrite Hu.
    assert (Qeq_bool (py_mod1 q) 0 = true) as ->.
    { apply py_mod1_whole. exists n. exact H. }
    rewrite (py_int_whole _ _ H). reflexivity.
  - intros q u Hu Hw. unfold format_quantity.
    apply String.eqb_neq in Hu. rewrite Hu.
    apply py_mod1_fraction in Hw. rewrite Hw. reflexivity.
Qed.

(** ** Checkout *)

Lemma not_refused (catalog : gmap Z Product.t) (item : CartItem.t) :
  ~ refused catalog item <->
  exists product,
    catalog !! key_of (CartItem.product_id item) = Some product /\
    0 < Product.quantity_available product /\
    CartItem.quantity item <= Product.quantity_available product.
Proof.
  unfold refused.
  destruct (catalog !! key_of (CartItem.product_id item)) as [p|].
  - split.
    + intros H. exists p. split; [reflexivity |]. split.
      * apply Qnot_le_lt. tauto.
      * apply Qnot_lt_le. tauto.
    + intros (p' & Hp & H0 & Hq) [H | H]; injection Hp as <-.
      * exact (Qlt_not_le _ _ H0 H).
      * exact (Qlt_not_le _ _ H Hq).
  - split; [tauto | intros (p' & Hp & _); discriminate].
Qed.

Lemma stock_check (product : Product.t) (item : CartItem.t) :
  Qle_bool (Product.quantity_available product) 0
  || Qgtb (CartItem.quantity item) (Product.quantity_available product)
  = true <->
  Product.quantity_available product <= 0 \/
  Product.quantity_available product < CartItem.quantity item.
Proof. rewrite orb_true_iff, Qle_bool_iff, Qgtb_lt. reflexivity. Qed.

Lemma validate_stock_refused (catalog : gmap Z Product.t)
    (c : list CartItem.t) (total : Q) (acc : list CheckedItem) :
  Exists (refused catalog) c -> validate_stock catalog c total acc = None.
Proof.
  revert total acc. induction c as [|item c IH]; intros total acc H.
  - inversion H.
  - simpl. pose proof (stock_check) as Hs. unfold refused in H.
    destruct (catalog !! key_of (CartItem.product_id item)) as [p|] eqn:Ep;
      [| reflexivity].
    destruct (Qle_bool _ 0 || Qgtb _ _) eqn:Eb; [reflexivity |].
    apply IH. apply Exists_cons in H as [H | H]; [| exact H].
    unfold refused in H. rewrite Ep in H. apply Hs in H. congruence.
Qed.

Lemma validate_stock_accepted (catalog : gmap Z Product.t)
    (c : list CartItem.t) (total : Q) (acc : list CheckedItem) :
  Forall (fun item => ~ refused catalog item) c ->
  validate_stock catalog c total acc =
  Some (fold_left
          (fun t item =>
             fadd t (fmul (CartItem.price item) (CartItem.quantity item)))
          c total,
        (acc ++ (checked_of <$> c))%list).
Proof.
  revert total acc. induction c as [|item c IH]; intros total acc H.
  - simpl. rewrite app_nil_r. reflexivity.
  - apply Forall_cons in H as [Hi H]. simpl.
    unfold refused in Hi.
    destruct (catalog !! key_of (CartItem.product_id item)) as [p|];
      [| tauto].
    destruct (Qle_bool _ 0 || Qgtb _ _) eqn:Eb.
    { apply stock_check in Eb. tauto. }
    rewrite (IH _ _ H), <- app_assoc. reflexivity.
Qed.

Lemma validate_stock_Some (catalog : gmap Z Product.t)
    (c : list CartItem.t) (total : Q) (acc : list CheckedItem)
    (res : Q * list CheckedItem) :
  validate_stock catalog c total acc = Some res ->
  Forall (fun item => ~ refused catalog item) c.
Proof.
  intros H. apply Forall_forall. intros item Hin Hr.
  rewrite validate_stock_refused in H; [discriminate |].
  apply Exists_exists. exists item. split; [exact Hin | exact Hr].
Qed.

Lemma create_items_orders (oid : Z) (cis : list CheckedItem) (d : Database) :
  orders (create_items oid cis d) = orders d.
Proof.
  revert d. induction cis as [|ci cis IH]; intros d; [reflexivity |].
  simpl. rewrite IH. reflexivity.
Qed.

Lemma create_items_products (oid : Z) (cis : list CheckedItem) (d : Database) :
  products (create_items oid cis d) = take_stock cis (products d).
Proof.
  revert d. induction cis as [|ci cis IH]; intros d; [reflexivity |].
  simpl. rewrite IH. reflexivity.
Qed.

Lemma create_items_items (oid : Z) (c : list CartItem.t) (d : Database) :
  exists new_items : list OrderItem.t,
    order_items (create_items oid (checked_of <$> c) d) =
      (order_items d ++ new_items)%list /\
    Forall2 (item_of_line oid) c new_items.
Proof.
  revert d. induction c as [|item c IH]; intros d.
  - exists []. simpl. rewrite app_nil_r. split; [reflexivity | constructor].
  - simpl.
    match goal with |- context [create_items oid _ ?d1] =>
      destruct (IH d1) as (new & Hnew & Hall) end.
    simpl in Hnew. rewrite <- app_assoc in Hnew. simpl in Hnew.
    eexists. split; [exact Hnew |].
    constructor; [| exact Hall]. repeat split.
Qed.

Lemma take_stock_cons (item : CartItem.t) (c : list CartItem.t)
    (m : gmap Z Product.t) :
  take_stock (checked_of <$> (item :: c)) m =
  take_stock (checked_of <$> c)
    (alter (decrement (CartItem.quantity item))
       (key_of (CartItem.product_id item)) m).
Proof. reflexivity. Qed.

Lemma take_stock_absent (c : list CartItem.t) (m : gmap Z Product.t)
    (key : Z) :
  key ∉ cart_keys c -> take_stock (checked_of <$> c) m !! key = m !! key.
Proof.
  revert m. induction c as [|item c IH]; intros m Hn; [reflexivity |].
  unfold cart_keys, cart_ids in Hn.
  rewrite !fmap_cons, not_elem_of_cons in Hn. destruct Hn as [Hne Hn].
  rewrite take_stock_cons, (IH _ Hn). apply lookup_alter_ne. congruence.
Qed.

Lemma take_stock_once (c : list CartItem.t) (m : gmap Z Product.t)
    (line : CartItem.t) :
  NoDup (cart_keys c) -> line ∈ c ->
  take_stock (checked_of <$> c) m !! key_of (CartItem.product_id line) =
  decrement (CartItem.quantity line) <$>
    m !! key_of (CartItem.product_id line).
Proof.
  revert m. induction c as [|item c IH]; intros m Hnd Hin.
  - inversion Hin.
  - unfold cart_keys, cart_ids in Hnd. rewrite !fmap_cons in Hnd.
    apply NoDup_cons in Hnd as [Hhd Hnd].
    rewrite take_stock_cons. apply elem_of_cons in Hin as [-> | Hin].
    + rewrite (take_stock_absent _ _ _ Hhd). apply lookup_alter_eq.
    + rewrite (IH _ Hnd Hin). rewrite lookup_alter_ne; [reflexivity |].
      intros E. apply Hhd. rewrite E.
      apply list_elem_of_fmap.
      exists (CartItem.product_id line). split; [reflexivity |].
      apply list_elem_of_fmap. exists line. split; [reflexivity | exact Hin].
Qed.

Lemma same_but_stock_refl (p : Product.t) : same_but_stock p p.
Proof. repeat split. Qed.

Lemma same_but_stock_decrement (q : Q) (p p' : Product.t) :
  same_but_stock (decrement q p) p' -> same_but_stock p p'.
Proof. destruct p. exact (fun H => H). Qed.

Lemma decrement_spec (q : Q) (p : Product.t) :
  Product.quantity_available (decrement q p) =
    fsub (Product.quantity_available p) q /\
  same_but_stock p (decrement q p).
Proof. destruct p. repeat split. Qed.

Lemma take_stock_lookup (c : list CartItem.t) (m : gmap Z Product.t)
    (key : Z) :
  match m !! key with
  | None => take_stock (checked_of <$> c) m !! key = None
  | Some p =>
      exists p' : Product.t,
        take_stock (checked_of <$> c) m !! key = Some p' /\
        Product.quantity_available p' =
          stock_after key c (Product.quantity_available p) /\
        same_but_stock p p'
  end.
Proof.
  revert m. induction c as [|item c IH]; intros m.
  - unfold take_stock. simpl.
    destruct (m !! key) as [p|]; [| reflexivity].
    exists p. split; [reflexivity |]. split; [reflexivity |].
    apply same_but_stock_refl.
  - rewrite take_stock_cons.
    specialize (IH (alter (decrement (CartItem.quantity item))
                      (key_of (CartItem.product_id item)) m)).
    unfold stock_after. simpl.
    destruct (Z.eqb_spec (key_of (CartItem.product_id item)) key) as [E|E].
    + rewrite E in IH |- *. rewrite lookup_alter_eq in IH.
      destruct (m !! key) as [p|]; simpl in IH; [| exact IH].
      destruct IH as (p' & Hp' & Hq & Hs). exists p'. split; [exact Hp' |].
      split; [| exact (same_but_stock_decrement _ _ _ Hs)].
      rewrite Hq. destruct p. reflexivity.
    + rewrite lookup_alter_ne in IH by exact E.
      destruct (m !! key) as [p|]; exact IH.
Qed.

Lemma next_key_above (keys : list Z) (k : Z) :
  k ∈ keys -> (k < next_key keys)%Z.
Proof.
  unfold next_key. induction keys as [|x keys IH]; intros H.
  - inversion H.
  - simpl. apply elem_of_cons in H as [-> | H]; [lia |].
    specialize (IH H). lia.
Qed.

Lemma next_id_fresh {A} (table : gmap Z A) : table !! next_id table = None.
Proof.
  destruct (table !! next_id table) as [v|] eqn:E; [| reflexivity].
  exfalso. apply elem_of_map_to_list in E.
  assert (next_id table ∈ (map_to_list table).*1) as Hin.
  { apply list_elem_of_fmap. exists (next_id table, v). split; [reflexivity | exact E]. }
  apply next_key_above in Hin. unfold next_id in Hin at 1. lia.
Qed.

Lemma sum_subtotals_from (oid : Z) (c : list CartItem.t)
    (new_items : list OrderItem.t) :
  Forall2 (item_of_line oid) c new_items ->
  forall x : Q,
  fold_left
    (fun acc it =>
       fadd acc (fmul (OrderItem.quantity it) (OrderItem.price it)))
    new_items x =
  fold_left
    (fun total item =>
       fadd total (fmul (CartItem.price item) (CartItem.quantity item)))
    c x.
Proof.
  induction 1 as [|line it c new (_ & _ & Hq & Hp) _ IH]; intros x.
  - reflexivity.
  - simpl. rewrite Hq, Hp, (fmul_comm (CartItem.quantity line)). apply IH.
Qed.

(** Quantity times price, added up over the items of the order, is the
    total of the loop over the cart, to the last bit: the same products,
    rounded the same way, are added in the same order. *)
Lemma sum_subtotals_total (oid : Z) (c : list CartItem.t)
    (new_items : list OrderItem.t) :
  Forall2 (item_of_line oid) c new_items ->
  sum_subtotals new_items = cart_total c.
Proof. intros H. apply (sum_subtotals_from oid _ _ H). Qed.

Lemma items_of_new (oid : Z) (c : list CartItem.t) (d : Database)
    (new_items : list OrderItem.t) :
  orders d !! oid = None -> items_owned d ->
  Forall2 (item_of_line oid) c new_items ->
  items_of oid (order_items d ++ new_items) = new_items.
Proof.
  unfold items_of, items_owned. intros Hfresh Hown Hnew.
  rewrite filter_app.
  assert (filter (fun it => OrderItem.order_id it = oid) (order_items d) = [])
    as ->.
  { induction Hown as [|it l Hit _ IH]; [reflexivity |].
    rewrite filter_cons. destruct (decide (OrderItem.order_id it = oid)) as [E|_];
      [| exact IH].
    rewrite E, Hfresh in Hit. destruct Hit as [? Hit]. discriminate. }
  simpl. induction Hnew as [|line it c new (Ho & _) _ IH]; [reflexivity |].
  rewrite filter_cons. destruct (decide (OrderItem.order_id it = oid));
    [| contradiction].
  rewrite IH. reflexivity.
Qed.

Section CheckoutFacts.
Variable strptime : string -> string -> option datetime.

(** What a checkout does once every gate is passed. *)
Lemma process_checkout_placed (form : CheckoutForm) (utcnow : datetime)
    (st : State) (items : list CartItem.t) :
  cart (session st) = Some items -> items ≠ [] ->
  form_ok strptime form ->
  Forall (fun item => ~ refused (products (db st)) item) items ->
  exists pickup : datetime,
    let oid := next_id (orders (db st)) in
    let order :=
      Order.mk (default "" (customer_name form))
        (or_None (customer_email form)) (default "" (customer_phone form))
        pickup (cart_total items) "pending" utcnow in
    process_checkout strptime form utcnow st =
    (redirect (ep_order_confirmation oid)
       (Some ("Order placed successfully! Order ID: " +:+ str_int oid,
              "success")),
     set_cart None
       (set_db
          (create_items oid (checked_of <$> items)
             (mk_db (products (db st)) (<[oid := order]> (orders (db st)))
                (order_items (db st))))
          st)).
Proof.
  intros Hc Hne (H1 & H2 & H3 & H4 & [pickup Hp]) Hall.
  exists pickup. unfold process_checkout. rewrite Hc.
  destruct items as [|item items]; [congruence |].
  simpl forallb. rewrite H1, H2, H3, H4. simpl negb. cbv iota.
  rewrite Hp, (validate_stock_accepted _ _ _ _ Hall). reflexivity.
Qed.

(** The two outcomes of a checkout: nothing changes, or the order is
    committed. *)
Lemma process_checkout_cases (form : CheckoutForm) (utcnow : datetime)
    (st : State) :
  let r := process_checkout strptime form utcnow st in
  (is_placed r.1 = false /\ r.2 = st) \/
  (exists items : list CartItem.t,
     cart (session st) = Some items /\ items ≠ [] /\
     form_ok strptime form /\
     Forall (fun item => ~ refused (products (db st)) item) items).
Proof.
  unfold process_checkout.
  destruct (cart (session st)) as [[|item items]|] eqn:Hc;
    [left; split; reflexivity | | left; split; reflexivity].
  destruct (forallb truthy _) eqn:Hf; simpl negb; cbv iota;
    [| left; split; reflexivity].
  destruct (strptime _ _) as [pickup|] eqn:Hp;
    [| left; split; reflexivity].
  destruct (validate_stock _ _ _ _) as [[total cis]|] eqn:Hv;
    [| left; split; reflexivity].
  right. exists (item :: items). split; [reflexivity |].
  split; [discriminate |]. split.
  - simpl in Hf. rewrite !andb_true_iff in Hf.
    destruct Hf as (H1 & H2 & H3 & H4 & _).
    repeat split; try assumption. rewrite Hp. eexists. reflexivity.
  - exact (validate_stock_Some _ _ _ _ _ Hv).
Qed.

(** C1: when a line of the cart names a product that is gone, or whose
    stock is zero or less, or less than the line asks, the checkout does
    not place an order and the state after it is the state before it (no
    order, no order item, no stock change, cart kept); with the customer
    fields and the pickup time in order, the answer is OutOfStock. *)
Theorem checkout_refused (form : CheckoutForm) (utcnow : datetime)
    (st : State) (items : list CartItem.t) :
  cart (session st) = Some items ->
  Exists (refused (products (db st))) items ->
  let r := process_checkout strptime form utcnow st in
  r.2 = st /\
  orders (db r.2) = orders (db st) /\
  order_items (db r.2) = order_items (db st) /\
  products (db r.2) = products (db st) /\
  is_placed r.1 = false /\
  (form_ok strptime form -> r.1 = OutOfStock).
Proof.
  intros Hc Hex r.
  assert (r = process_checkout strptime form utcnow st) as Hr by reflexivity.
  assert (r.2 = st /\ is_placed r.1 = false /\
          (form_ok strptime form -> r.1 = OutOfStock)) as (H2 & H1 & H3).
  { rewrite Hr. unfold process_checkout. rewrite Hc.
    destruct items as [|item items]; [inversion Hex |].
    destruct (forallb truthy _) eqn:Hf; simpl negb; cbv iota.
    - destruct (strptime _ _) as [pickup|] eqn:Hp.
      + rewrite (validate_stock_refused _ _ _ _ Hex).
        repeat split.
      + repeat split. intros (_ & _ & _ & _ & [x Hx]). congruence.
    - repeat split. intros (H1 & H2 & H3 & H4 & _).
      simpl in Hf. rewrite H1, H2, H3, H4 in Hf. discriminate. }
  rewrite H2. repeat split; assumption.
Qed.
(** C2: a checkout of a non-empty cart, with the customer fields and the
    pickup time in order and every line passing the stock check, is
    placed: one new order, pending, whose total is the float sum of the
    line subtotals (price times quantity, as floats); one order item per
    cart line, with the line's product, quantity and price; the stock of
    every product reduced, by float subtraction, by the quantity of each
    line that names it, its other columns kept (by the line's quantity, in
    a cart whose lines name different products); the cart dropped from the
    session; and quantity times price, added up over the order's items,
    equals the order's total. *)
Theorem checkout_placed (form : CheckoutForm) (utcnow : datetime)
    (st : State) (items : list CartItem.t) :
  cart (session st) = Some items -> items ≠ [] ->
  form_ok strptime form ->
  Forall (fun item => ~ refused (products (db st)) item) items ->
  let r := process_checkout strptime form utcnow st in
  exists (oid : Z) (order : Order.t) (new_items : list OrderItem.t),
    r.1 = redirect (ep_order_confirmation oid)
            (Some ("Order placed successfully! Order ID: " +:+ str_int oid,
                   "success")) /\
    orders (db st) !! oid = None /\
    orders (db r.2) = <[oid := order]> (orders (db st)) /\
    Order.status order = "pending" /\
    Order.total_amount order = cart_total items /\
    order_items (db r.2) = (order_items (db st) ++ new_items)%list /\
    Forall2 (item_of_line oid) items new_items /\
    (forall key : Z,
       match products (db st) !! key with
       | None => products (db r.2) !! key = None
       | Some p =>
           exists p' : Product.t,
             products (db r.2) !! key = Some p' /\
             Product.quantity_available p' =
               stock_after key items (Product.quantity_available p) /\
             same_but_stock p p'
       end) /\
    (NoDup (cart_keys items) ->
     forall line : CartItem.t, line ∈ items ->
       exists p p' : Product.t,
         products (db st) !! key_of (CartItem.product_id line) = Some p /\
         products (db r.2) !! key_of (CartItem.product_id line) = Some p' /\
         p' = decrement (CartItem.quantity line) p /\
         Product.quantity_available p' =
           fsub (Product.quantity_available p) (CartItem.quantity line) /\
         same_but_stock p p') /\
    cart (session r.2) = None /\
    seller_id (session r.2) = seller_id (session st) /\
    sum_subtotals new_items = Order.total_amount order /\
    (items_owned (db st) ->
     items_of oid (order_items (db r.2)) = new_items).
Proof.
  intros Hc Hne Hform Hall r.
  destruct (process_checkout_placed form utcnow st items Hc Hne Hform Hall)
    as (pickup & Hr).
  cbv zeta in Hr. subst r. rewrite Hr. clear Hr. simpl.
  rewrite create_items_orders, create_items_products. simpl.
  set (oid := next_id (orders (db st))).
  set (order := Order.mk _ _ _ pickup _ _ _).
  destruct (create_items_items oid items
              (mk_db (products (db st)) (<[oid := order]> (orders (db st)))
                 (order_items (db st)))) as (new_items & Hnew & Hlines).
  simpl in Hnew.
  exists oid, order, new_items.
  split; [reflexivity |]. split; [apply next_id_fresh |].
  split; [reflexivity |]. split; [reflexivity |]. split; [reflexivity |].
  split; [exact Hnew |]. split; [exact Hlines |].
  split; [intros key; apply take_stock_lookup |].
  split.
  { intros Hnd line Hin. rewrite (take_stock_once _ _ _ Hnd Hin).
    rewrite Forall_forall in Hall. apply Hall, not_refused in Hin.
    destruct Hin as (p & Hp & _).
    exists p, (decrement (CartItem.quantity line) p). rewrite Hp.
    destruct (decrement_spec (CartItem.quantity line) p) as [Hq Hs].
    repeat split; try reflexivity; try exact Hq; apply Hs. }
  split; [reflexivity |]. split; [reflexivity |].
  split; [exact (sum_subtotals_total _ _ _ Hlines) |].
  intros Hown. rewrite Hnew.
  exact (items_of_new oid items (db st) new_items (next_id_fresh _) Hown
           Hlines).
Qed.
End CheckoutFacts.

(** ** Stock is never negative *)

Lemma add_to_cart_keeps (pid : ProductId) (q : Q) (st : State) :
  db (add_to_cart pid q st).2 = db st /\
  (cart_unique st -> cart_unique (add_to_cart pid q st).2).
Proof.
  destruct (products (db st) !! key_of pid) as [product|] eqn:Hp.
  - rewrite (add_to_cart_unfold _ q _ _ Hp).
    destruct (Qgtb q _); [split; auto |].
    destruct (line_of pid (cart_of st)) as [item|] eqn:El.
    + destruct (line_of_Some _ _ _ El) as (l1 & l2 & Hc & Hn & Hi).
      unfold cart_unique.
      rewrite Hc, (merge_item_first _ _ _ _ _ _ Hn Hi).
      destruct (Qgtb _ _); simpl; [rewrite Hc; split; auto |].
      split; [reflexivity |]. unfold cart_of. simpl.
      rewrite cart_ids_set_quantity. auto.
    + apply line_of_None in El. rewrite (merge_item_absent _ _ _ _ El).
      simpl. split; [reflexivity |]. unfold cart_unique. intros Hnd.
      unfold cart_of at 1. simpl. rewrite cart_ids_app.
      apply NoDup_app. split; [exact Hnd |]. split; [| apply NoDup_singleton].
      intros x Hx Hx2. simpl in Hx2. apply list_elem_of_singleton in Hx2.
      subst x. exact (El Hx).
  - unfold add_to_cart. rewrite Hp. split; auto.
Qed.

Lemma update_cart_keeps (pid : ProductId) (q : Q) (st : State) :
  db (update_cart pid q st).2 = db st /\
  (cart_unique st -> cart_unique (update_cart pid q st).2).
Proof.
  unfold update_cart.
  destruct (cart (session st)) as [c|] eqn:Hc; [| split; auto].
  destruct (products (db st) !! key_of pid) as [product|]; [| split; auto].
  destruct (Qgtb q _); [split; auto |]. simpl. split; [reflexivity |].
  unfold cart_unique, cart_of. rewrite Hc. simpl. apply NoDup_set_item.
Qed.

Lemma remove_from_cart_keeps (pid : ProductId) (st : State) :
  db (remove_from_cart pid st).2 = db st /\
  (cart_unique st -> cart_unique (remove_from_cart pid st).2).
Proof.
  unfold remove_from_cart.
  destruct (cart (session st)) as [c|] eqn:Hc; [| split; auto].
  simpl. split; [reflexivity |].
  unfold cart_unique, cart_of. rewrite Hc. simpl. rewrite cart_ids_filter.
  apply NoDup_filter.
Qed.

Lemma take_stock_nonneg (c : list CartItem.t) (m : gmap Z Product.t) :
  NoDup (cart_keys c) ->
  Forall (fun item => ~ refused m item) c ->
  map_Forall (fun _ p => 0 <= Product.quantity_available p) m ->
  map_Forall (fun _ p => 0 <= Product.quantity_available p)
    (take_stock (checked_of <$> c) m).
Proof.
  intros Hnd Hall Hm key p' Hp'.
  destruct (decide (key ∈ cart_keys c)) as [Hin|Hout].
  - apply list_elem_of_fmap in Hin as (pid & -> & Hin).
    apply list_elem_of_fmap in Hin as (line & -> & Hin).
    rewrite (take_stock_once _ _ _ Hnd Hin) in Hp'.
    rewrite Forall_forall in Hall. apply Hall, not_refused in Hin.
    destruct Hin as (p & Hp & _ & Hq). rewrite Hp in Hp'.
    injection Hp' as <-.
    destruct (decrement_spec (CartItem.quantity line) p) as [-> _].
    apply fsub_nonneg. exact Hq.
  - rewrite (take_stock_absent _ _ _ Hout) in Hp'. exact (Hm _ _ Hp').
Qed.

Lemma stock_nonneg_insert (d : Database) (id : Z) (p : Product.t) :
  stock_nonneg d -> 0 <= Product.quantity_available p ->
  map_Forall (fun _ p => 0 <= Product.quantity_available p)
    (<[id := p]> (products d)).
Proof. intros Hd Hp. apply map_Forall_insert_2; assumption. Qed.

(** C4 (amended): with every stock non-negative before, every request
    leaves every stock non-negative, provided the quantity a seller submits
    when creating or updating a product is not negative and the cart that a
    checkout commits names a different product on each line; marking out of
    stock needs no proviso. *)
Theorem stock_stays_nonneg (strptime : string -> string -> option datetime)
    (req : Request) (st : State) :
  stock_nonneg (db st) -> submitted_nonneg req -> lines_distinct req st ->
  stock_nonneg (db (handle strptime req st).2).
Proof.
  intros Hs Hq Hu. destruct req; simpl handle.
  - destruct (add_to_cart_keeps product_id quantity st) as [-> H]. auto.
  - destruct (update_cart_keeps product_id quantity st) as [-> H]. auto.
  - destruct (remove_from_cart_keeps product_id st) as [-> H]. auto.
  - destruct (process_checkout_cases strptime form utcnow st)
      as [[_ ->] | (items & Hc & Hne & Hform & Hall)]; [auto |].
    destruct (process_checkout_placed strptime form utcnow st items Hc Hne
                Hform Hall) as (pickup & ->).
    unfold stock_nonneg. simpl. rewrite create_items_products. simpl.
    apply take_stock_nonneg; try assumption.
    simpl in Hu. unfold distinct_products, cart_of in Hu.
    rewrite Hc in Hu. exact Hu.
  - unfold add_product, seller_login_required.
    destruct (seller_id (session st)); [| auto]. simpl.
    apply stock_nonneg_insert; assumption.
  - unfold update_product, seller_login_required.
    destruct (seller_id (session st)); [| auto].
    destruct (products (db st) !! id); [| auto]. simpl.
    apply stock_nonneg_insert; assumption.
  - unfold mark_out_of_stock, seller_login_required.
    destruct (seller_id (session st)); [| auto].
    destruct (products (db st) !! id); [| auto]. simpl.
    apply stock_nonneg_insert; [assumption | discriminate].
  - unfold update_order_status, seller_login_required.
    destruct (seller_id (session st)); [| auto].
    destruct (orders (db st) !! id); [| auto].
    destruct (status_in _ _); auto.
  - unfold delete_order, seller_login_required.
    destruct (seller_id (session st)); [| auto].
    destruct (orders (db st) !! id); auto.
Qed.

(** ** Order items always belong to an order *)

Lemma items_owned_orders (d : Database) (os : gmap Z Order.t)
    (ps : gmap Z Product.t) :
  items_owned d ->
  (forall k : Z, is_Some (orders d !! k) -> is_Some (os !! k)) ->
  items_owned (mk_db ps os (order_items d)).
Proof.
  unfold items_owned. simpl. intros Hd Hk.
  induction Hd as [|it l Hit _ IH]; constructor; auto.
Qed.

Lemma new_items_owned (oid : Z) (c : list CartItem.t)
    (new_items : list OrderItem.t) (os : gmap Z Order.t) :
  Forall2 (item_of_line oid) c new_items -> is_Some (os !! oid) ->
  Forall (fun it => is_Some (os !! OrderItem.order_id it)) new_items.
Proof.
  intros Hlines Hos.
  induction Hlines as [|line it c new (Ho & _) _ IH]; constructor;
    [| exact IH].
  rewrite Ho. exact Hos.
Qed.

Lemma items_owned_preserved
    (strptime : string -> string -> option datetime) (req : Request)
    (st : State) :
  items_owned (db st) -> items_owned (db (handle strptime req st).2).
Proof.
  intros Hd. destruct req; simpl handle.
  - destruct (add_to_cart_keeps product_id quantity st) as [-> _]. exact Hd.
  - destruct (update_cart_keeps product_id quantity st) as [-> _]. exact Hd.
  - destruct (remove_from_cart_keeps product_id st) as [-> _]. exact Hd.
  - destruct (process_checkout_cases strptime form utcnow st)
      as [[_ ->] | (items & Hc & Hne & Hform & Hall)]; [exact Hd |].
    destruct (process_checkout_placed strptime form utcnow st items Hc Hne
                Hform Hall) as (pickup & ->).
    simpl. set (oid := next_id (orders (db st))).
    set (order := Order.mk _ _ _ pickup _ _ _).
    destruct (create_items_items oid items
                (mk_db (products (db st)) (<[oid := order]> (orders (db st)))
                   (order_items (db st)))) as (new_items & Hnew & Hlines).
    unfold items_owned. rewrite Hnew, create_items_orders. simpl.
    apply Forall_app. split.
    + eapply Forall_impl; [exact Hd |]. intros it Hit. simpl in Hit.
      apply lookup_insert_is_Some'. right. exact Hit.
    + apply (new_items_owned oid items); [exact Hlines |].
      rewrite lookup_insert_eq. eexists. reflexivity.
  - unfold add_product, seller_login_required.
    destruct (seller_id (session st)); [| exact Hd]. simpl.
    apply items_owned_orders; auto.
  - unfold update_product, seller_login_required.
    destruct (seller_id (session st)); [| exact Hd].
    destruct (products (db st) !! id); [| exact Hd]. simpl.
    apply items_owned_orders; auto.
  - unfold mark_out_of_stock, seller_login_required.
    destruct (seller_id (session st)); [| exact Hd].
    destruct (products (db st) !! id); [| exact Hd]. simpl.
    apply items_owned_orders; auto.
  - unfold update_order_status, seller_login_required.
    destruct (seller_id (session st)); [| exact Hd].
    destruct (orders (db st) !! id); [| exact Hd].
    destruct (status_in _ _); [| exact Hd]. simpl.
    apply items_owned_orders; [exact Hd |].
    intros k Hk. apply lookup_insert_is_Some'. right. exact Hk.
  - unfold delete_order, seller_login_required.
    destruct (seller_id (session st)); [| exact Hd].
    destruct (orders (db st) !! id); [| exact Hd]. simpl.
    unfold items_owned in *. simpl.
    induction Hd as [|it l Hit _ IH]; [constructor |].
    rewrite filter_cons. destruct (decide (OrderItem.order_id it ≠ id));
      [| exact IH].
    constructor; [| exact IH]. rewrite lookup_delete_ne by congruence.
    exact Hit.
Qed.

(** ** The statements at sample states *)

(** C5 (the code at the failing input): product 1, with 5 kg in stock,
    is added once under the id "1" and once under the id 1, 3 kg each
    time.  The loop of [add_to_cart] compares the stored value with the
    submitted one, the text with the number, finds no line, and appends:
    the second request succeeds although 3 + 3 exceeds the stock, and the
    cart holds two lines for product 1. *)
Lemma add_to_cart_two_lines :
  let st1 := (add_to_cart (str_id 1) 3 (shop 5 None)).2 in
  let r := add_to_cart (int_id 1) 3 st1 in
  cart_of st1 = [apples_text_line 3] /\
  products (db st1) !! key_of (int_id 1) = Some (apples 5) /\
  Product.quantity_available (apples 5) < fadd 3 3 /\
  r.1 = jsonify (json_success_count 2) 200 /\
  cart_of r.2 = [apples_text_line 3; apples_line 3] /\
  cart_keys (cart_of r.2) = [1%Z; 1%Z] /\
  ~ distinct_products r.2.
Proof.
  intros st1 r. repeat split; try (vm_compute; reflexivity).
  intros H. change (NoDup [1%Z; 1%Z]) in H.
  apply NoDup_cons in H as [H _]. apply H, list_elem_of_here.
Qed.

(** Adding 2 kg to an empty session of a shop with 5 kg appends the line;
    adding 1 kg to a cart that holds 2 kg makes it one line of 3 kg, at the
    price and under the name it had; adding 0.2 kg to a cart that holds
    0.1 kg is refused when the stock is 0.3 kg, the float sum being
    0.30000000000000004. *)
Lemma add_to_cart_spec_witness :
  (let st := shop (py_float 0.3) (Some [apples_line (py_float 0.1)]) in
   products (db st) !! key_of (int_id 1) = Some (apples (py_float 0.3)) /\
   add_to_cart (int_id 1) (py_float 0.2) st = (InsufficientStock, st)) /\
  (products (db (shop 5 None)) !! key_of (int_id 1) = Some (apples 5) /\
   (add_to_cart (int_id 1) 2 (shop 5 None)).1 <> InsufficientStock /\
   cart_of (add_to_cart (int_id 1) 2 (shop 5 None)).2 = [apples_line 2]) /\
  (let st := shop 5 (Some [apples_line 2]) in
   products (db st) !! key_of (int_id 1) = Some (apples 5) /\
   (add_to_cart (int_id 1) 1 st).1 <> InsufficientStock /\
   exists item' : CartItem.t,
     cart_of (add_to_cart (int_id 1) 1 st).2 = [item'] /\
     CartItem.quantity item' = 3 /\
     CartItem.product_id item' = int_id 1 /\
     CartItem.price item' = 10.0 /\
     CartItem.name item' = "Fresh Apples").
Proof.
  split; [| split].
  - intros st.
    assert (products (db st) !! key_of (int_id 1) =
            Some (apples (py_float 0.3))) as Hp by reflexivity.
    destruct (add_to_cart_spec (int_id 1) (py_float 0.2) st
                (apples (py_float 0.3)) Hp) as (Hfail & Hsame & _).
    split; [exact Hp |].
    assert ((add_to_cart (int_id 1) (py_float 0.2) st).1 = InsufficientStock)
      as Hr.
    { apply Hfail. right. exists (apples_line (py_float 0.1)).
      split; [reflexivity |]. vm_compute. reflexivity. }
    rewrite (surjective_pairing (add_to_cart _ _ _)), Hr, (Hsame Hr).
    reflexivity.
  - assert (products (db (shop 5 None)) !! key_of (int_id 1) =
            Some (apples 5)) as Hp by reflexivity.
    destruct (add_to_cart_spec (int_id 1) 2 (shop 5 None) (apples 5) Hp)
      as (Hfail & _ & Hok & _).
    split; [exact Hp |].
    assert ((add_to_cart (int_id 1) 2 (shop 5 None)).1 <> InsufficientStock)
      as Hne.
    { intros H. apply Hfail in H. destruct H as [H | (item & H & _)].
      - revert H. apply Qle_not_lt. discriminate.
      - discriminate. }
    split; [exact Hne |].
    destruct (Hok Hne) as (c' & Hr & Hc'). simpl in Hc'. subst c'.
    rewrite Hr. reflexivity.
  - intros st.
    assert (products (db st) !! key_of (int_id 1) = Some (apples 5)) as Hp
      by reflexivity.
    destruct (add_to_cart_spec (int_id 1) 1 st (apples 5) Hp)
      as (Hfail & _ & Hok & _).
    split; [exact Hp |].
    assert ((add_to_cart (int_id 1) 1 st).1 <> InsufficientStock) as Hne.
    { intros H. apply Hfail in H. destruct H as [H | (item & Hi & H)].
      - revert H. apply Qle_not_lt. discriminate.
      - injection Hi as <-. revert H. apply Qle_not_lt.
        vm_compute. discriminate. }
    split; [exact Hne |].
    destruct (Hok Hne) as (c' & Hr & Hc').
    change (line_of (int_id 1) (cart_of st)) with (Some (apples_line 2))
      in Hc'.
    destruct Hc' as (l1 & l2 & item' & Hl & _ & -> & Hq & Hs).
    change (cart_of st) with [apples_line 2] in Hl.
    destruct l1 as [|x l1]; [| destruct l1; discriminate].
    injection Hl as <-.
    exists item'. rewrite Hr.
    destruct Hs as (Hid & Hpr & Hna & _).
    split; [reflexivity |].
    split; [rewrite Hq; vm_compute; reflexivity |].
    split; [exact Hid |]. split; [exact Hpr | exact Hna].
Defined.

(** Setting the line of a present product to zero fails once the product
    has left the catalog, and once its stock is negative; the line stays. *)
Lemma update_cart_zero_keeps_line :
  (let st := shop 5 (Some [eggs_line]) in
   update_cart (int_id 2) 0 st = (abort_404, st) /\
   int_id 2 ∈ cart_ids (cart_of (update_cart (int_id 2) 0 st).2)) /\
  (let st := shop (-1) (Some [apples_line 2]) in
   update_cart (int_id 1) 0 st = (InsufficientStock, st) /\
   int_id 1 ∈ cart_ids (cart_of (update_cart (int_id 1) 0 st).2)).
Proof.
  split; (split; [reflexivity | apply list_elem_of_here]).
Qed.

Lemma update_cart_spec_witness :
  cart (session (shop 5 (Some [apples_line 2]))) = Some [apples_line 2] /\
  exists c' : list CartItem.t,
    update_cart (int_id 1) 4 (shop 5 (Some [apples_line 2])) =
      (jsonify json_success 200,
       set_cart (Some c') (shop 5 (Some [apples_line 2]))) /\
    line_of (int_id 1) c' = Some (apples_line 4).
Proof.
  split; [reflexivity |].
  pose proof (update_cart_spec (int_id 1) 4 (shop 5 (Some [apples_line 2]))
                [apples_line 2] eq_refl) as H.
  change (products (db (shop 5 (Some [apples_line 2]))) !! key_of (int_id 1))
    with (Some (apples 5)) in H.
  destruct H as [_ H]. destruct H as (c' & Hr & _ & Hc').
  { discriminate. }
  exists c'. split; [exact Hr |].
  simpl in Hc'. destruct Hc' as (l1 & l2 & Hl & Hn & _ & Hc').
  destruct l1 as [|x l1].
  - injection Hl as <-. rewrite Hc' by discriminate. reflexivity.
  - destruct l1; discriminate.
Defined.

(** Removing from a session that has no cart is answered by an error. *)
Lemma remove_from_cart_no_cart :
  (int_id 1 ∉ cart_ids (cart_of (shop 5 None))) /\
  remove_from_cart (int_id 1) (shop 5 None) = (CartIsEmpty, shop 5 None) /\
  remove_from_cart (int_id 1)
    (remove_from_cart (int_id 1) (shop 5 None)).2 =
    (CartIsEmpty, shop 5 None).
Proof.
  split; [apply not_elem_of_nil |]. split; reflexivity.
Qed.

Lemma remove_from_cart_spec_witness :
  remove_from_cart (int_id 2) (shop 5 (Some [apples_line 2])) =
    (jsonify json_success 200, shop 5 (Some [apples_line 2])) /\
  remove_from_cart (int_id 1)
    (remove_from_cart (int_id 1) (shop 5 (Some [apples_line 2]))).2 =
    (jsonify json_success 200, shop 5 (Some [])).
Proof.
  split.
  - destruct (remove_from_cart_spec (int_id 2)
                (shop 5 (Some [apples_line 2])))
      as (H1 & _ & _ & _ & H2 & _).
    rewrite (surjective_pairing (remove_from_cart _ _)), H1, H2;
      [reflexivity |].
    simpl. rewrite list_elem_of_singleton. discriminate.
  - destruct (remove_from_cart_spec (int_id 1)
                (shop 5 (Some [apples_line 2])))
      as (_ & _ & _ & _ & _ & H).
    rewrite H. reflexivity.
Defined.

(** A checkout of 6 kg against 5 kg is refused and changes nothing. *)
Lemma checkout_refused_witness :
  cart (session (shop 5 (Some [apples_line 6]))) = Some [apples_line 6] /\
  Exists (refused (products (db (shop 5 (Some [apples_line 6])))))
    [apples_line 6] /\
  process_checkout any_time a_form noon (shop 5 (Some [apples_line 6])) =
    (OutOfStock, shop 5 (Some [apples_line 6])).
Proof.
  assert (Exists (refused (products (db (shop 5 (Some [apples_line 6])))))
            [apples_line 6]) as Hex.
  { apply Exists_cons_hd. right. reflexivity. }
  split; [reflexivity |]. split; [exact Hex |].
  destruct (checkout_refused any_time a_form noon
              (shop 5 (Some [apples_line 6])) [apples_line 6] eq_refl Hex)
    as (Hst & _ & _ & _ & _ & Hr).
  rewrite (surjective_pairing (process_checkout _ _ _ _)), Hst, Hr;
    [reflexivity |].
  repeat split. exists noon. reflexivity.
Defined.

(** The total of one line of 0.9 kg at the price 0.1 is the double
    0.09000000000000001: the product of the two doubles, rounded, and not
    their product as rationals. *)
Lemma total_is_rounded :
  let line :=
    CartItem.mk (int_id 1) (py_float 0.9) (py_float 0.1) "Fresh Apples"
      None "kg" in
  cart_total [line] = 6485183463413515 # 72057594037927936 /\
  str_float (cart_total [line]) = "0.09000000000000001" /\
  ~ cart_total [line] == py_float 0.1 * py_float 0.9.
Proof.
  intros line. split; [vm_compute; reflexivity |].
  split; [vm_compute; reflexivity |].
  intros H. vm_compute in H. discriminate H.
Qed.

(** The end-to-end example: one line of product 1, quantity 2 at price 10,
    is placed for a total of 20, with one order item, the stock reduced by
    2 and the cart gone. *)
Lemma checkout_placed_witness :
  let st := shop 5 (Some [apples_line 2]) in
  let r := process_checkout any_time a_form noon st in
  cart (session st) = Some [apples_line 2] /\
  form_ok any_time a_form /\
  Forall (fun item => ~ refused (products (db st)) item) [apples_line 2] /\
  exists (oid : Z) (order : Order.t) (it : OrderItem.t),
    r.1 = redirect (ep_order_confirmation oid)
            (Some ("Order placed successfully! Order ID: " +:+ str_int oid,
                   "success")) /\
    orders (db r.2) = <[oid := order]> (orders (db st)) /\
    Order.status order = "pending" /\
    Order.total_amount order = 20 /\
    order_items (db r.2) = [it] /\
    fmul (OrderItem.quantity it) (OrderItem.price it) = 20 /\
    sum_subtotals [it] = Order.total_amount order /\
    Product.quantity_available <$> products (db r.2) !! 1%Z = Some 3 /\
    cart (session r.2) = None.
Proof.
  intros st r.
  assert (form_ok any_time a_form) as Hform.
  { repeat split. exists noon. reflexivity. }
  assert (Forall (fun item => ~ refused (products (db st)) item)
            [apples_line 2]) as Hall.
  { apply Forall_singleton, not_refused. exists (apples 5).
    split; [reflexivity |]. split; [reflexivity | discriminate]. }
  split; [reflexivity |]. split; [exact Hform |]. split; [exact Hall |].
  destruct (checkout_placed any_time a_form noon st [apples_line 2] eq_refl
              ltac:(discriminate) Hform Hall)
    as (oid & order & new_items & Hr & _ & Ho & Hs & Ht & Hi & Hl & _ & Hp
        & Hc & _ & Hsum & _).
  fold r in Hr, Ho, Hi, Hp, Hc.
  apply Forall2_cons_inv_l in Hl as (it & rest & Hit & Hrest & ->).
  apply Forall2_nil_inv_l in Hrest as ->.
  exists oid, order, it.
  split; [exact Hr |]. split; [exact Ho |]. split; [exact Hs |].
  split; [rewrite Ht; vm_compute; reflexivity |]. split; [exact Hi |].
  destruct Hit as (_ & _ & Hq & Hpr).
  split; [rewrite Hq, Hpr; vm_compute; reflexivity |].
  split; [exact Hsum |].
  split; [| exact Hc].
  destruct (Hp ltac:(apply NoDup_singleton) (apples_line 2)
              ltac:(apply list_elem_of_here))
    as (p & p' & Hp1 & Hp2 & _ & Hq' & _).
  change (key_of (CartItem.product_id (apples_line 2))) with 1%Z in Hp1, Hp2.
  rewrite Hp2. simpl. rewrite Hq'. injection Hp1 as <-.
  vm_compute. reflexivity.
Defined.

(** A seller who submits the quantity -1, when updating a product or when
    creating one, leaves a product with negative stock; and a customer who
    adds product 1, with 5 kg in stock, once under the id "1" and once
    under the id 1, 3 kg each time, checks out a cart of two lines that
    each pass the stock check and leaves the stock at -1. *)
Lemma negative_stock_submitted :
  stock_nonneg (db (back_office 5)) /\
  Product.quantity_available <$>
    products (db (update_product 1 (restock (-1)) (back_office 5)).2) !! 1%Z
  = Some (-1) /\
  ~ stock_nonneg (db (update_product 1 (restock (-1)) (back_office 5)).2) /\
  ~ stock_nonneg (db (add_product (restock (-1)) noon (back_office 5)).2) /\
  (let st := run any_time
               [POST_cart_add (str_id 1) 3; POST_cart_add (int_id 1) 3]
               (shop 5 None) in
   let r := process_checkout any_time a_form noon st in
   stock_nonneg (db st) /\
   cart_of st = [apples_text_line 3; apples_line 3] /\
   cart_unique st /\
   is_placed r.1 = true /\
   Product.quantity_available <$> products (db r.2) !! 1%Z = Some (-1) /\
   ~ stock_nonneg (db r.2)).
Proof.
  split.
  { apply map_Forall_singleton. discriminate. }
  split; [reflexivity |]. split; [| split].
  - intros H.
    assert (exists p,
              products (db (update_product 1 (restock (-1)) (back_office 5)).2)
                !! 1%Z = Some p /\
              Product.quantity_available p = -1) as (p & Hp & Hq)
      by (eexists; split; reflexivity).
    apply H in Hp. rewrite Hq in Hp. revert Hp. apply Qlt_not_le.
    reflexivity.
  - intros H.
    assert (exists p,
              products (db (add_product (restock (-1)) noon (back_office 5)).2)
                !! 2%Z = Some p /\
              Product.quantity_available p = -1) as (p & Hp & Hq)
      by (eexists; split; reflexivity).
    apply H in Hp. rewrite Hq in Hp. revert Hp. apply Qlt_not_le.
    reflexivity.
  - intros st r.
    assert (cart_of st = [apples_text_line 3; apples_line 3]) as Hcart
      by (vm_compute; reflexivity).
    split; [apply map_Forall_singleton; discriminate |].
    split; [exact Hcart |].
    split.
    { unfold cart_unique. rewrite Hcart.
      apply NoDup_cons. split; [| apply NoDup_singleton].
      rewrite list_elem_of_singleton. discriminate. }
    split; [vm_compute; reflexivity |].
    assert (exists p,
              products (db r.2) !! 1%Z = Some p /\
              Product.quantity_available p = -1) as (p & Hp & Hq)
      by (eexists; split; vm_compute; reflexivity).
    split; [rewrite Hp; simpl; rewrite Hq; reflexivity |].
    intros H. apply H in Hp. rewrite Hq in Hp. revert Hp.
    apply Qlt_not_le. reflexivity.
Qed.

(** A checkout of the whole stock leaves it at zero, and an update to zero
    stores zero. *)
Lemma stock_stays_nonneg_witness :
  let st := shop 5 (Some [apples_line 5]) in
  stock_nonneg (db st) /\
  lines_distinct (POST_checkout a_form noon) st /\
  is_placed (process_checkout any_time a_form noon st).1 = true /\
  stock_nonneg (db (process_checkout any_time a_form noon st).2) /\
  stock_nonneg (db (update_product 1 (restock 0) (back_office 5)).2).
Proof.
  intros st.
  assert (stock_nonneg (db st)) as Hs.
  { apply map_Forall_singleton. discriminate. }
  assert (lines_distinct (POST_checkout a_form noon) st) as Hu
    by apply NoDup_singleton.
  split; [exact Hs |]. split; [exact Hu |].
  split; [reflexivity |]. split.
  - exact (stock_stays_nonneg any_time (POST_checkout a_form noon) st
             Hs I Hu).
  - refine (stock_stays_nonneg any_time
              (POST_products_update 1 (restock 0)) (back_office 5)
              Hs _ I).
    simpl. discriminate.
Defined.

(** An order goes from pending straight to completed; an unknown status is
    ignored without a message. *)
Lemma update_order_status_spec_witness :
  let st := shop_with_order "pending" in
  seller_id (session st) = Some 1%Z /\
  Order.status <$> orders (db st) !! 1%Z = Some "pending" /\
  Order.status <$>
    orders (db (update_order_status 1 (Some "completed") st).2) !! 1%Z
  = Some "completed" /\
  update_order_status 1 (Some "shipped") st =
    (redirect ep_seller_orders None, st).
Proof.
  intros st. split; [reflexivity |]. split; [reflexivity |].
  assert (orders (db st) !! 1%Z = Some (Order.mk "Asha" None "555" noon 20 "pending" noon))
    as Ho by reflexivity.
  split.
  - destruct (update_order_status_spec 1 1 (Some "completed") st _ eq_refl Ho)
      as [H _].
    destruct (H "completed" eq_refl) as (_ & _ & Hs & _); [| exact Hs].
    do 2 apply list_elem_of_further. apply list_elem_of_here.
  - destruct (update_order_status_spec 1 1 (Some "shipped") st _ eq_refl Ho)
      as [_ H].
    apply H. intros s [= <-]. rewrite !not_elem_of_cons.
    repeat split; try discriminate. apply not_elem_of_nil.
Defined.

(** Deleting the only order drops it and its item; the stock stays at 3. *)
Lemma delete_order_spec_witness :
  let st := shop_with_order "ready" in
  seller_id (session st) = Some 1%Z /\
  is_Some (orders (db st) !! 1%Z) /\
  orders (db (delete_order 1 st).2) !! 1%Z = None /\
  items_of 1 (order_items (db (delete_order 1 st).2)) = [] /\
  products (db (delete_order 1 st).2) = products (db st).
Proof.
  intros st. split; [reflexivity |]. split; [eexists; reflexivity |].
  destruct (delete_order_spec 1 1 st _ eq_refl eq_refl)
    as (_ & Ho & _ & Hi & _ & Hp & _).
  split; [exact Ho |]. split; [exact Hi | exact Hp].
Defined.

(** The double that the literal [0.3] denotes. *)
Lemma py_float_0_3 :
  py_float 0.3 = 5404319552844595 # 18014398509481984.
Proof. vm_compute. reflexivity. Qed.

(** 2 kg, the float 0.3 kg, a dozen and 2.5 pieces. *)
Lemma format_quantity_spec_witness :
  format_quantity 2 "kg" = "2 kg" /\
  (exists grams : Z,
     truncation (fmul (py_float 0.3) 1000) grams /\
     format_quantity (py_float 0.3) "kg" = str_int grams +:+ "g") /\
  format_quantity (py_float 0.3) "kg" = "300g" /\
  format_quantity 12 "dozen" = "12" /\
  format_quantity 2.5 "quantity" = "2.5".
Proof.
  destruct format_quantity_spec
    as (_ & _ & _ & _ & _ & Hkg & Hg & Hn & Hf & _ & _ & _ & H03 & _).
  split; [exact (Hkg 2 2%Z ltac:(reflexivity) ltac:(discriminate)) |].
  split.
  - apply (Hg (py_float 0.3)).
    + intros [n Hn']. rewrite py_float_0_3 in Hn'.
      unfold Qeq in Hn'. simpl in Hn'. lia.
    + intros H. vm_compute in H. discriminate H.
    + intros H. vm_compute in H. discriminate H.
    + intros H. vm_compute in H. discriminate H.
    + intros H. vm_compute in H. discriminate H.
  - split; [exact H03 |]. split.
    + exact (Hn 12 "dozen" 12%Z ltac:(discriminate) ltac:(reflexivity)).
    + rewrite (Hf 2.5 "quantity"); [vm_compute; reflexivity | discriminate |].
      intros [n Hn']. unfold Qeq in Hn'. simpl in Hn'. lia.
Defined.

(** Two customers ask 3 kg each of a stock of 5 kg, one request after the
    other: the first is placed and leaves 2 kg, the second is refused and
    the stock stays at 2 kg. *)
Lemma checkouts_in_turn :
  let first := process_checkout any_time a_form noon
                 (shop 5 (Some [apples_line 3])) in
  let second := process_checkout any_time a_form noon
                  (mk_state (db first.2) (mk_session (Some [apples_line 3]) None)) in
  is_placed first.1 = true /\
  Product.quantity_available <$> products (db first.2) !! 1%Z = Some (5 - 3) /\
  second.1 = OutOfStock /\
  db second.2 = db first.2.
Proof.
  intros first second. repeat split; vm_compute; reflexivity.
Qed.

(** ** More on carts *)

Lemma line_of_app (pid : ProductId) (l1 l2 : list CartItem.t) :
  line_of pid (l1 ++ l2) =
  match line_of pid l1 with
  | Some item => Some item
  | None => line_of pid l2
  end.
Proof.
  unfold line_of. induction l1 as [|x l1 IH]; simpl; [reflexivity |].
  destruct (py_eq _ pid); [reflexivity | exact IH].
Qed.

Lemma line_of_cons_other (pid : ProductId) (item : CartItem.t) (l : list CartItem.t) :
  CartItem.product_id item ≠ pid -> line_of pid (item :: l) = line_of pid l.
Proof.
  intros H. unfold line_of. simpl.
  destruct (py_eq_spec (CartItem.product_id item) pid); [contradiction |].
  reflexivity.
Qed.

Lemma line_of_cons_same (pid : ProductId) (item : CartItem.t) (l : list CartItem.t) :
  CartItem.product_id item = pid -> line_of pid (item :: l) = Some item.
Proof.
  intros H. unfold line_of. simpl. rewrite H, py_eq_refl. reflexivity.
Qed.

Lemma line_of_filter_other (pid pid' : ProductId) (c : list CartItem.t) :
  pid' ≠ pid ->
  line_of pid' (filter (fun item => CartItem.product_id item ≠ pid) c) =
  line_of pid' c.
Proof.
  intros Hne. induction c as [|x c IH]; [reflexivity |].
  rewrite filter_cons.
  destruct (decide (CartItem.product_id x ≠ pid)) as [Hx|Hx].
  - unfold line_of in *. simpl. rewrite IH. reflexivity.
  - rewrite IH. symmetry. apply line_of_cons_other.
    intros E. apply Hx. congruence.
Qed.

Lemma set_item_other (pid pid' : ProductId) (q : Q) (c : list CartItem.t) :
  pid' ≠ pid -> line_of pid' (set_item c pid q) = line_of pid' c.
Proof.
  intros Hne. unfold line_of. induction c as [|x c IH]; [reflexivity |].
  simpl. destruct (py_eq_spec (CartItem.product_id x) pid) as [E|E].
  - destruct (py_eq_spec (CartItem.product_id x) pid') as [E'|E'];
      [congruence |].
    destruct (Qeq_bool q 0); [reflexivity |]. simpl.
    destruct (py_eq_spec (CartItem.product_id x) pid');
      [congruence | reflexivity].
  - simpl. destruct (py_eq _ pid'); [reflexivity | exact IH].
Qed.

Lemma set_item_zero (pid : ProductId) (c : list CartItem.t) :
  NoDup (cart_ids c) ->
  set_item c pid 0 = filter (fun item => CartItem.product_id item ≠ pid) c.
Proof.
  induction c as [|x c IH]; intros Hnd; [reflexivity |].
  unfold cart_ids in Hnd. rewrite fmap_cons in Hnd.
  apply NoDup_cons in Hnd as [Hx Hnd]. simpl. rewrite filter_cons.
  destruct (py_eq_spec (CartItem.product_id x) pid) as [E|E].
  - destruct (decide (CartItem.product_id x ≠ pid)); [contradiction |].
    rewrite E in Hx. symmetry. apply filter_absent. exact Hx.
  - destruct (decide (CartItem.product_id x ≠ pid)); [| contradiction].
    rewrite (IH Hnd). reflexivity.
Qed.

(** X1: a successful [add_to_cart] leaves the product's line with a
    quantity that the stock, as read by the request, covers. *)
Theorem add_to_cart_within_stock (pid : ProductId) (q : Q) (st : State)
    (product : Product.t) :
  products (db st) !! key_of pid = Some product ->
  (add_to_cart pid q st).1 <> InsufficientStock ->
  exists item : CartItem.t,
    line_of pid (cart_of (add_to_cart pid q st).2) = Some item /\
    CartItem.quantity item <= Product.quantity_available product.
Proof.
  intros Hp. rewrite (add_to_cart_unfold _ q _ _ Hp).
  destruct (Qgtb q _) eqn:Eq; [intros H; exfalso; apply H; reflexivity |].
  apply Qgtb_le in Eq.
  destruct (line_of pid (cart_of st)) as [item|] eqn:El.
  - destruct (line_of_Some _ _ _ El) as (l1 & l2 & Hc & Hn & Hi).
    rewrite Hc, (merge_item_first _ _ _ _ _ _ Hn Hi).
    destruct (Qgtb _ _) eqn:Em; [intros H; exfalso; apply H; reflexivity |].
    apply Qgtb_le in Em. intros _. eexists. split.
    + unfold cart_of. simpl. rewrite line_of_app.
      apply line_of_None in Hn. rewrite Hn.
      apply line_of_cons_same. exact Hi.
    + exact Em.
  - pose proof El as Hn. apply line_of_None in Hn.
    rewrite (merge_item_absent _ _ _ _ Hn). intros _.
    eexists. split.
    + unfold cart_of at 1. simpl. rewrite line_of_app, El.
      apply line_of_cons_same. reflexivity.
    + exact Eq.
Qed.

(** X2: a successful [update_cart] on a cart without two equal
    ['product_id'] values leaves no line of the id above the stock, as read
    by the request. *)
Theorem update_cart_within_stock (pid : ProductId) (q : Q) (st : State)
    (product : Product.t) (item : CartItem.t) :
  cart_unique st ->
  products (db st) !! key_of pid = Some product ->
  (update_cart pid q st).1 = jsonify json_success 200 ->
  line_of pid (cart_of (update_cart pid q st).2) = Some item ->
  CartItem.quantity item <= Product.quantity_available product.
Proof.
  unfold cart_unique, cart_of, update_cart. intros Hu Hp.
  destruct (cart (session st)) as [c|] eqn:Hc; [| discriminate].
  rewrite Hp. destruct (Qgtb q _) eqn:Eq; [discriminate |].
  apply Qgtb_le in Eq. intros _. simpl in *.
  destruct (line_of pid c) as [old|] eqn:El.
  - destruct (line_of_Some _ _ _ El) as (l1 & l2 & -> & Hn & Hi).
    rewrite (set_item_first _ _ _ _ _ Hn Hi).
    destruct (Qeq_bool q 0).
    + rewrite cart_ids_app in Hu. simpl in Hu.
      apply NoDup_app in Hu as (_ & _ & H3).
      apply NoDup_cons in H3 as [H3 _]. rewrite Hi in H3.
      rewrite line_of_app. apply line_of_None in Hn, H3.
      rewrite Hn, H3. discriminate.
    + rewrite line_of_app. apply line_of_None in Hn. rewrite Hn.
      rewrite line_of_cons_same by exact Hi. intros [= <-]. exact Eq.
  - apply line_of_None in El. rewrite (set_item_absent _ _ _ El).
    apply line_of_None in El. congruence.
Qed.


(** X4: adding a product that has no line and removing it again gives
    back the cart as it was. *)
Theorem add_then_remove (pid : ProductId) (q : Q) (st : State) :
  pid ∉ cart_ids (cart_of st) ->
  (add_to_cart pid q st).1 <> InsufficientStock ->
  cart_of (remove_from_cart pid (add_to_cart pid q st).2).2 = cart_of st.
Proof.
  intros Hn.
  destruct (products (db st) !! key_of pid) as [product|] eqn:Hp.
  - rewrite (add_to_cart_unfold _ q _ _ Hp).
    destruct (Qgtb q _); [intros H; exfalso; apply H; reflexivity |].
    rewrite (merge_item_absent _ _ _ _ Hn). intros _.
    unfold remove_from_cart, cart_of at 1. simpl.
    rewrite filter_app, (filter_absent _ _ Hn), filter_cons.
    simpl. destruct (decide (pid ≠ pid)); [contradiction |].
    apply app_nil_r.
  - unfold add_to_cart. rewrite Hp. intros _. simpl.
    unfold remove_from_cart, cart_of.
    destruct (cart (session st)) as [c|] eqn:Hc;
      [| simpl; rewrite Hc; reflexivity].
    simpl. apply filter_absent. unfold cart_of in Hn. rewrite Hc in Hn.
    exact Hn.
Qed.

(** X5: on a cart without two equal ['product_id'] values, for a product
    of the catalog whose stock is not negative, [update_cart] with
    quantity 0 is [remove_from_cart]. *)
Theorem update_zero_is_remove (pid : ProductId) (st : State) (c : list CartItem.t)
    (product : Product.t) :
  cart (session st) = Some c -> cart_unique st ->
  products (db st) !! key_of pid = Some product ->
  0 <= Product.quantity_available product ->
  update_cart pid 0 st = remove_from_cart pid st.
Proof.
  unfold cart_unique, cart_of, update_cart, remove_from_cart.
  intros Hc Hu Hp Hq. rewrite Hc in *. rewrite Hp. simpl in Hu.
  apply Qgtb_le in Hq. rewrite Hq, (set_item_zero _ _ Hu). reflexivity.
Qed.

(** X6: a cart route for one ['product_id'] leaves the line of every
    other value as it is. *)
Theorem cart_routes_other_lines (pid pid' : ProductId) (q : Q) (st : State) :
  pid' ≠ pid ->
  line_of pid' (cart_of (add_to_cart pid q st).2) = line_of pid' (cart_of st)
  /\
  line_of pid' (cart_of (update_cart pid q st).2) = line_of pid' (cart_of st)
  /\
  line_of pid' (cart_of (remove_from_cart pid st).2) =
    line_of pid' (cart_of st).
Proof.
  intros Hne. split; [| split].
  - destruct (products (db st) !! key_of pid) as [product|] eqn:Hp;
      [| unfold add_to_cart; rewrite Hp; reflexivity].
    rewrite (add_to_cart_unfold _ q _ _ Hp).
    destruct (Qgtb q _); [reflexivity |].
    destruct (line_of pid (cart_of st)) as [item|] eqn:El.
    + destruct (line_of_Some _ _ _ El) as (l1 & l2 & Hc & Hn & Hi).
      rewrite Hc at 1. rewrite (merge_item_first _ _ _ _ _ _ Hn Hi).
      destruct (Qgtb _ _); [reflexivity |].
      unfold cart_of at 1. simpl. rewrite Hc, !line_of_app.
      destruct (line_of pid' l1); [reflexivity |].
      rewrite !line_of_cons_other by (simpl; congruence). reflexivity.
    + apply line_of_None in El. rewrite (merge_item_absent _ _ _ _ El).
      unfold cart_of at 1. simpl. rewrite line_of_app.
      destruct (line_of pid' (cart_of st)); [reflexivity |].
      apply line_of_cons_other. simpl. congruence.
  - unfold update_cart, cart_of.
    destruct (cart (session st)) as [c|] eqn:Hc;
      [| simpl; rewrite Hc; reflexivity].
    destruct (products (db st) !! key_of pid); [| simpl; rewrite Hc; reflexivity].
    destruct (Qgtb q _); [simpl; rewrite Hc; reflexivity |]. simpl.
    apply set_item_other. exact Hne.
  - unfold remove_from_cart, cart_of.
    destruct (cart (session st)) as [c|] eqn:Hc;
      [| simpl; rewrite Hc; reflexivity].
    simpl. apply line_of_filter_other. exact Hne.
Qed.

(** X7: adding to a cart reserves nothing: after a successful
    [add_to_cart], a session with no cart yet, on the same tables, can add
    the same quantity of the same product. *)
Theorem add_to_cart_reserves_nothing (pid : ProductId) (q : Q) (st : State)
    (n : nat) (other : Session) :
  (add_to_cart pid q st).1 = jsonify (json_success_count n) 200 ->
  cart other = None ->
  db (add_to_cart pid q st).2 = db st /\
  (add_to_cart pid q (mk_state (db (add_to_cart pid q st).2) other)).1 =
    jsonify (json_success_count 1) 200.
Proof.
  intros Hr Ho. destruct (add_to_cart_keeps pid q st) as [Hdb _].
  split; [exact Hdb |]. rewrite Hdb.
  destruct (products (db st) !! key_of pid) as [product|] eqn:Hp;
    [| unfold add_to_cart in Hr; rewrite Hp in Hr; discriminate].
  rewrite (add_to_cart_unfold _ q _ _ Hp) in Hr.
  rewrite (add_to_cart_unfold _ q _ product) by exact Hp.
  destruct (Qgtb q _); [discriminate |].
  unfold cart_of. simpl. rewrite Ho. reflexivity.
Qed.

(** ** More on the checkout *)

Lemma new_items_filtered (oid : Z) (c : list CartItem.t)
    (new_items : list OrderItem.t) :
  Forall2 (item_of_line oid) c new_items ->
  filter (fun it => OrderItem.order_id it ≠ oid) new_items = [].
Proof.
  induction 1 as [|line it c new (Ho & _) _ IH]; [reflexivity |].
  rewrite filter_cons. destruct (decide (OrderItem.order_id it ≠ oid));
    [contradiction | exact IH].
Qed.

Lemma old_items_kept (oid : Z) (d : Database) :
  items_owned d -> orders d !! oid = None ->
  filter (fun it => OrderItem.order_id it ≠ oid) (order_items d) =
  order_items d.
Proof.
  unfold items_owned. intros Hown Hfresh.
  induction Hown as [|it l Hit _ IH]; [reflexivity |].
  rewrite filter_cons. destruct (decide (OrderItem.order_id it ≠ oid)) as [_|E].
  - rewrite IH. reflexivity.
  - exfalso. apply E. intros E'. rewrite E', Hfresh in Hit.
    destruct Hit as [? Hit]. discriminate.
Qed.

Section MoreCheckout.
Variable strptime : string -> string -> option datetime.

(** X8: an order is placed exactly when the cart is not empty, the four
    required fields are filled, the pickup time parses and no line is
    refused; the e-mail address plays no part.  Every other checkout leaves
    the state, the cart included, as it was. *)
Theorem checkout_placed_iff (form : CheckoutForm) (utcnow : datetime)
    (st : State) :
  let r := process_checkout strptime form utcnow st in
  (is_placed r.1 = true <->
   exists items : list CartItem.t,
     cart (session st) = Some items /\ items ≠ [] /\
     form_ok strptime form /\
     Forall (fun item => ~ refused (products (db st)) item) items) /\
  (is_placed r.1 = false -> r.2 = st).
Proof.
  intros r. subst r.
  destruct (process_checkout_cases strptime form utcnow st)
    as [[Hno Hst] | (items & Hc & Hne & Hform & Hall)].
  - split; [| intros _; exact Hst].
    split; [intros H; congruence |].
    intros (items & Hc & Hne & Hform & Hall).
    destruct (process_checkout_placed strptime form utcnow st items Hc Hne
                Hform Hall) as (pickup & Hr).
    cbv zeta in Hr. rewrite Hr in Hno. discriminate.
  - destruct (process_checkout_placed strptime form utcnow st items Hc Hne
                Hform Hall) as (pickup & Hr).
    cbv zeta in Hr. rewrite Hr. simpl. split; [| discriminate].
    split; [intros _; exists items; auto | reflexivity].
Qed.

(** X9: the gates of a checkout, in their order: an absent or empty cart
    is sent back to the cart page without a message; then a missing
    required field is reported; then a pickup time that does not parse;
    each before any stock is read, and none changes the state. *)
Theorem checkout_gates (form : CheckoutForm) (utcnow : datetime)
    (st : State) :
  let r := process_checkout strptime form utcnow st in
  let filled :=
    truthy (customer_name form) && truthy (customer_phone form) &&
    truthy (pickup_date form) && truthy (pickup_time_slot form) in
  (cart_of st = [] -> r = (redirect ep_cart None, st)) /\
  (cart_of st ≠ [] -> filled = false ->
   r = (redirect ep_checkout
          (Some ("Please fill all required fields", "error")), st)) /\
  (cart_of st ≠ [] -> filled = true ->
   strptime (default "" (pickup_date form) +:+ " " +:+
             default "" (pickup_time_slot form)) "%Y-%m-%d %I:%M %p" = None ->
   r = (redirect ep_checkout (Some ("Invalid pickup time", "error")), st)).
Proof.
  intros r filled. subst r filled. unfold process_checkout, cart_of.
  destruct (cart (session st)) as [[|item items]|]; simpl.
  - split; [reflexivity |].
    split; intros H; exfalso; apply H; reflexivity.
  - rewrite andb_true_r, !andb_assoc.
    split; [discriminate |]. split.
    + intros _ ->. reflexivity.
    + intros _ -> ->. reflexivity.
  - split; [reflexivity |].
    split; intros H; exfalso; apply H; reflexivity.
Qed.

(** X10: a checkout that was placed cannot be placed twice: whatever the
    form, the next checkout of the session goes back to the cart page and
    changes nothing. *)
Theorem checkout_twice (form form' : CheckoutForm) (utcnow utcnow' : datetime)
    (st : State) :
  is_placed (process_checkout strptime form utcnow st).1 = true ->
  process_checkout strptime form' utcnow'
    (process_checkout strptime form utcnow st).2 =
  (redirect ep_cart None, (process_checkout strptime form utcnow st).2).
Proof.
  destruct (process_checkout_cases strptime form utcnow st)
    as [[Hno _] | (items & Hc & Hne & Hform & Hall)]; [congruence |].
  destruct (process_checkout_placed strptime form utcnow st items Hc Hne
              Hform Hall) as (pickup & Hr).
  cbv zeta in Hr. rewrite Hr. intros _. reflexivity.
Qed.

(** X11: deleting the order a checkout has just placed gives back the
    tables of orders and order items as they were before the checkout; the
    stock stays as the checkout left it. *)
Theorem checkout_then_delete (form : CheckoutForm) (utcnow : datetime)
    (st : State) (items : list CartItem.t) (seller : Session) (sid : Z) :
  cart (session st) = Some items -> items ≠ [] ->
  form_ok strptime form ->
  Forall (fun item => ~ refused (products (db st)) item) items ->
  items_owned (db st) ->
  seller_id seller = Some sid ->
  let placed := (process_checkout strptime form utcnow st).2 in
  let deleted :=
    (delete_order (next_id (orders (db st)))
       (mk_state (db placed) seller)).2 in
  orders (db deleted) = orders (db st) /\
  order_items (db deleted) = order_items (db st) /\
  products (db deleted) = products (db placed).
Proof.
  intros Hc Hne Hform Hall Hown Hs placed deleted. subst deleted placed.
  destruct (process_checkout_placed strptime form utcnow st items Hc Hne
              Hform Hall) as (pickup & Hr).
  cbv zeta in Hr. rewrite Hr. clear Hr. simpl.
  set (oid := next_id (orders (db st))).
  set (order := Order.mk _ _ _ pickup _ _ _).
  set (d := mk_db (products (db st)) (<[oid := order]> (orders (db st)))
              (order_items (db st))).
  destruct (create_items_items oid items d) as (new_items & Hnew & Hlines).
  unfold delete_order, seller_login_required. simpl. rewrite Hs.
  rewrite create_items_orders. simpl. rewrite lookup_insert_eq. simpl.
  rewrite Hnew. simpl.
  split; [apply delete_insert_id, next_id_fresh |]. split; [| reflexivity].
  rewrite filter_app, (new_items_filtered _ _ _ Hlines), app_nil_r.
  apply old_items_kept; [exact Hown | apply next_id_fresh].
Qed.
End MoreCheckout.

(** ** More on the back office *)

(** X12: without a seller in the session, every seller request is sent to
    the login page and changes nothing. *)
Theorem seller_routes_need_login
    (strptime : string -> string -> option datetime) (req : Request)
    (st : State) :
  is_seller_request req = true ->
  seller_id (session st) = None ->
  handle strptime req st = (redirect ep_seller_login None, st).
Proof.
  intros Hreq Hs. destruct req; try discriminate; simpl;
    unfold add_product, update_product, mark_out_of_stock,
      update_order_status, delete_order, seller_login_required;
    rewrite Hs; reflexivity.
Qed.

(** X13: for a logged-in seller, updating or marking a product that is not
    in the catalog, and updating or deleting an order that is not in the
    table, is answered 404 and changes nothing. *)
Theorem seller_routes_unknown_id (id sid : Z) (form : ProductForm)
    (new_status : option string) (st : State) :
  seller_id (session st) = Some sid ->
  (products (db st) !! id = None ->
   update_product id form st = (abort_404, st) /\
   mark_out_of_stock id st = (abort_404, st)) /\
  (orders (db st) !! id = None ->
   update_order_status id new_status st = (abort_404, st) /\
   delete_order id st = (abort_404, st)).
Proof.
  intros Hs.
  unfold update_product, mark_out_of_stock, update_order_status,
    delete_order, seller_login_required.
  rewrite Hs. split; intros ->; split; reflexivity.
Qed.

(** X14: a product is created under a key the catalog does not hold:
    every product of the catalog stays as it is, and the catalog has one
    product more. *)
Theorem add_product_fresh (form : ProductForm) (utcnow : datetime)
    (st : State) (sid : Z) :
  seller_id (session st) = Some sid ->
  let r := add_product form utcnow st in
  let id := next_id (products (db st)) in
  products (db st) !! id = None /\
  Product.quantity_available <$> products (db r.2) !! id =
    Some (pf_quantity form) /\
  (forall (j : Z) (p : Product.t),
     products (db st) !! j = Some p -> products (db r.2) !! j = Some p) /\
  total_products (db r.2) = S (total_products (db st)) /\
  orders (db r.2) = orders (db st) /\
  order_items (db r.2) = order_items (db st).
Proof.
  intros Hs r id. subst r id. unfold add_product, seller_login_required.
  rewrite Hs. simpl. pose proof (next_id_fresh (products (db st))) as Hf.
  split; [exact Hf |]. split; [rewrite lookup_insert_eq; reflexivity |].
  split.
  - intros j p Hj. rewrite lookup_insert_ne; [exact Hj |]. congruence.
  - split; [| split; reflexivity].
    unfold total_products. simpl. apply map_size_insert_None. exact Hf.
Qed.

Section OutOfStock.
Variable strptime : string -> string -> option datetime.

(** X15: once a seller has marked a product out of stock, no positive
    quantity of it can be added to a cart, and no checkout of a cart with a
    line of it is placed or changes anything. *)
Theorem out_of_stock_blocks (id sid : Z) (st : State) (product : Product.t) :
  seller_id (session st) = Some sid ->
  products (db st) !! id = Some product ->
  let d := db (mark_out_of_stock id st).2 in
  products d !! id = Some (Product.set_quantity_available 0.0 product) /\
  (forall (pid : ProductId) (q : Q) (s : Session),
     key_of pid = id -> 0 < q ->
     add_to_cart pid q (mk_state d s) = (InsufficientStock, mk_state d s)) /\
  (forall (form : CheckoutForm) (utcnow : datetime) (s : Session)
          (items : list CartItem.t),
     cart s = Some items -> id ∈ cart_keys items ->
     let r := process_checkout strptime form utcnow (mk_state d s) in
     is_placed r.1 = false /\ r.2 = mk_state d s).
Proof.
  intros Hs Hp d. subst d. unfold mark_out_of_stock, seller_login_required.
  rewrite Hs, Hp. simpl.
  split; [apply lookup_insert_eq |]. split.
  - intros pid q s <- Hq. unfold add_to_cart. simpl.
    rewrite lookup_insert_eq.
    simpl. assert (Qgtb q 0.0 = true) as ->; [| reflexivity].
    apply Qgtb_lt. assert (0.0 == 0) as -> by reflexivity. exact Hq.
  - intros form utcnow s items Hc Hin.
    match goal with |- context [process_checkout _ _ _ ?st1] =>
      destruct (process_checkout_cases strptime form utcnow st1)
        as [H | (items' & Hc' & _ & _ & Hall)] end; [exact H |].
    exfalso. simpl in Hc'. rewrite Hc in Hc'. injection Hc' as <-.
    apply list_elem_of_fmap in Hin as (pid & Hid & Hin).
    apply list_elem_of_fmap in Hin as (line & -> & Hin).
    rewrite Forall_forall in Hall. apply (Hall line Hin).
    unfold refused. simpl. rewrite <- Hid, lookup_insert_eq. simpl.
    left. discriminate.
Qed.

(** X16: neither stock check puts a lower bound on a quantity: a negative
    quantity of a product in stock is accepted into a cart, its checkout is
    placed, and the stock after it is the float difference of the stock
    and that negative quantity, the other columns kept. *)
Theorem negative_quantity_restocks (pid : ProductId) (q : Q) (st : State)
    (product : Product.t) (form : CheckoutForm) (utcnow : datetime) :
  products (db st) !! key_of pid = Some product ->
  0 < Product.quantity_available product ->
  q < 0 ->
  cart (session st) = None ->
  form_ok strptime form ->
  let added := add_to_cart pid q st in
  let r := process_checkout strptime form utcnow added.2 in
  CartItem.quantity <$> cart_of added.2 = [q] /\
  is_placed r.1 = true /\
  exists product' : Product.t,
    products (db r.2) !! key_of pid = Some product' /\
    Product.quantity_available product' =
      fsub (Product.quantity_available product) q /\
    same_but_stock product product'.
Proof.
  intros Hp Hpos Hq Hc Hform added r. subst r added.
  assert (q <= Product.quantity_available product) as Hle.
  { apply Qlt_le_weak. eapply Qlt_trans; eassumption. }
  rewrite (add_to_cart_unfold _ q _ _ Hp).
  apply Qgtb_le in Hle. rewrite Hle. apply Qgtb_le in Hle.
  unfold cart_of. rewrite Hc. simpl.
  split; [reflexivity |].
  set (line := CartItem.mk pid q _ _ _ _).
  assert (Forall (fun item => ~ refused (products (db st)) item) [line])
    as Hall.
  { apply Forall_singleton, not_refused. exists product. auto. }
  destruct (process_checkout_placed strptime form utcnow
              (set_cart (Some [line]) st) [line] eq_refl
              ltac:(discriminate) Hform Hall) as (pickup & Hr).
  cbv zeta in Hr. rewrite Hr. simpl.
  split; [reflexivity |].
  exists (decrement q product).
  destruct (decrement_spec q product) as [Hd Hs].
  split; [| split; [exact Hd | exact Hs]].
  rewrite lookup_alter_eq, Hp. reflexivity.
Qed.
End OutOfStock.

(** X17: of two status updates of an order in a row, both among pending,
    ready and completed, the second alone decides the state: it is the
    state the second update gives on its own. *)
Theorem update_order_status_twice (id sid : Z) (s1 s2 : string) (st : State)
    (order : Order.t) :
  seller_id (session st) = Some sid ->
  orders (db st) !! id = Some order ->
  s1 ∈ ["pending"; "ready"; "completed"] ->
  s2 ∈ ["pending"; "ready"; "completed"] ->
  update_order_status id (Some s2)
    (update_order_status id (Some s1) st).2 =
  update_order_status id (Some s2) st.
Proof.
  intros Hs Ho H1 H2. apply status_in_spec in H1, H2.
  unfold update_order_status, seller_login_required. rewrite Hs, Ho.
  unfold valid_statuses. rewrite H1. simpl. rewrite Hs, lookup_insert_eq.
  simpl in H2. rewrite H2. simpl. rewrite insert_insert_eq.
  reflexivity.
Qed.

(** X18: an order can be deleted once: deleting it again is answered 404
    and changes nothing. *)
Theorem delete_order_twice (id sid : Z) (st : State) (order : Order.t) :
  seller_id (session st) = Some sid ->
  orders (db st) !! id = Some order ->
  delete_order id (delete_order id st).2 =
  (abort_404, (delete_order id st).2).
Proof.
  intros Hs Ho. unfold delete_order, seller_login_required.
  rewrite Hs, Ho. simpl. rewrite Hs, lookup_delete_eq. reflexivity.
Qed.

(** X19: in every state that requests lead to from tables without order
    items, each order item belongs to an order of the table. *)
Theorem reachable_items_owned
    (strptime : string -> string -> option datetime) (reqs : list Request)
    (st : State) :
  order_items (db st) = [] -> items_owned (db (run strptime reqs st)).
Proof.
  intros Hempty.
  assert (items_owned (db st)) as Hown.
  { unfold items_owned. rewrite Hempty. constructor. }
  clear Hempty. revert st Hown. unfold run.
  induction reqs as [|req reqs IH]; intros st Hown; [exact Hown |].
  simpl. apply IH. apply items_owned_preserved. exact Hown.
Qed.

(** ** The dashboard after a checkout *)

Lemma take_stock_size (cis : list CheckedItem) (m : gmap Z Product.t) :
  size (take_stock cis m) = size m.
Proof.
  unfold take_stock. revert m. induction cis as [|ci cis IH]; intros m;
    [reflexivity |].
  simpl. rewrite IH, <- !size_dom, dom_alter_L. reflexivity.
Qed.

Section Dashboard.
Variable strptime : string -> string -> option datetime.

(** X20: after a placed checkout the dashboard counts one order more, one
    pending order more and the same number of products. *)
Theorem dashboard_after_checkout (form : CheckoutForm) (utcnow : datetime)
    (st : State) (items : list CartItem.t) :
  cart (session st) = Some items -> items ≠ [] ->
  form_ok strptime form ->
  Forall (fun item => ~ refused (products (db st)) item) items ->
  let d := db (process_checkout strptime form utcnow st).2 in
  total_orders d = S (total_orders (db st)) /\
  pending_orders d = S (pending_orders (db st)) /\
  total_products d = total_products (db st).
Proof.
  intros Hc Hne Hform Hall d. subst d.
  destruct (process_checkout_placed strptime form utcnow st items Hc Hne
              Hform Hall) as (pickup & Hr).
  cbv zeta in Hr. rewrite Hr. clear Hr. simpl.
  pose proof (next_id_fresh (orders (db st))) as Hfresh.
  set (oid := next_id (orders (db st))) in *.
  set (order := Order.mk _ _ _ pickup _ _ _).
  unfold total_orders, pending_orders, total_products.
  rewrite create_items_orders, create_items_products. simpl.
  split; [apply map_size_insert_None; exact Hfresh |]. split.
  - rewrite map_filter_insert_True by reflexivity.
    apply map_size_insert_None. apply map_lookup_filter_None. left.
    exact Hfresh.
  - apply take_stock_size.
Qed.
End Dashboard.

(** ** Pickup time slots *)

Lemma sync_add_lookup (existing : gset string) (l : list string)
    (t : gmap string bool) (s : string) :
  foldl
    (fun t slot_value =>
       if decide (slot_value ∈ existing) then t
       else <[slot_value := true]> t) t l !! s =
  if decide (s ∈ l /\ s ∉ existing) then Some true else t !! s.
Proof.
  revert t. induction l as [|x l IH]; intros t.
  - destruct (decide (s ∈ [] /\ s ∉ existing)) as [[H _]|_];
      [inversion H | reflexivity].
  - cbn [foldl]. rewrite IH.
    destruct (decide (s ∈ l /\ s ∉ existing)) as [[H1 H2]|H];
      destruct (decide (s ∈ x :: l /\ s ∉ existing)) as [[H3 H4]|H'];
      try reflexivity.
    + exfalso. apply H'. split; [apply list_elem_of_further; exact H1 | exact H2].
    + apply elem_of_cons in H3 as [-> | H3]; [| exfalso; apply H; tauto].
      destruct (decide (x ∈ existing)); [contradiction |].
      apply lookup_insert_eq.
    + destruct (decide (x ∈ existing)) as [Hx|Hx]; [reflexivity |].
      apply lookup_insert_ne. intros ->. apply H'.
      split; [apply list_elem_of_here | exact Hx].
Qed.

Lemma sync_enable_lookup (l : list string) (t : gmap string bool)
    (s : string) :
  foldl
    (fun t slot_value =>
       match t !! slot_value with
       | Some _ => <[slot_value := true]> t
       | None => t
       end) t l !! s =
  match t !! s with
  | Some b => Some (if decide (s ∈ l) then true else b)
  | None => None
  end.
Proof.
  revert t. induction l as [|x l IH]; intros t.
  - cbn [foldl]. destruct (t !! s); [| reflexivity].
    destruct (decide (s ∈ [])) as [H|_]; [inversion H | reflexivity].
  - cbn [foldl]. rewrite IH. destruct (decide (s = x)) as [->|Hsx].
    + destruct (t !! x) as [b|] eqn:Ex.
      * rewrite lookup_insert_eq.
        destruct (decide (x ∈ x :: l)) as [_|H];
          [| exfalso; apply H, list_elem_of_here].
        destruct (decide (x ∈ l)); reflexivity.
      * rewrite Ex. reflexivity.
    + assert (match t !! x with
              | Some _ => <[x:=true]> t
              | None => t
              end !! s = t !! s) as ->.
      { destruct (t !! x); [apply lookup_insert_ne; congruence | reflexivity]. }
      destruct (t !! s); [| reflexivity].
      destruct (decide (s ∈ l)) as [Hl|Hl];
        destruct (decide (s ∈ x :: l)) as [Hl'|Hl']; try reflexivity.
      * exfalso. apply Hl', list_elem_of_further. exact Hl.
      * apply elem_of_cons in Hl' as [-> | Hl']; contradiction.
Qed.

Lemma sync_time_slots_lookup (table : gmap string bool) (s : string) :
  sync_time_slots table !! s =
  if decide (s ∈ desired_time_slots) then Some true else None.
Proof.
  unfold sync_time_slots. rewrite sync_enable_lookup, sync_add_lookup.
  destruct (decide (s ∈ desired_time_slots)) as [Hd|Hd].
  - destruct (decide (s ∈ desired_time_slots /\ s ∉ dom table))
      as [_|Hn]; [reflexivity |].
    destruct (table !! s) as [b|] eqn:Et.
    + rewrite (map_lookup_filter_Some_2 _ _ _ b); [reflexivity | exact Et |].
      exact Hd.
    + exfalso. apply Hn. split; [exact Hd |].
      apply not_elem_of_dom. exact Et.
  - destruct (decide (s ∈ desired_time_slots /\ s ∉ dom table))
      as [[H _]|_]; [contradiction |].
    rewrite map_lookup_filter_None_2; [reflexivity |].
    right. intros x _. exact Hd.
Qed.

(** X21: whatever the table of pickup slots held, after
    [sync_time_slots] it holds exactly the twelve desired slots, each
    available: a slot outside the list is gone, a slot that was switched
    off is on again, and a second run changes nothing. *)
Theorem sync_time_slots_result (table : gmap string bool) :
  (forall s : string,
     sync_time_slots table !! s =
     if decide (s ∈ desired_time_slots) then Some true else None) /\
  sync_time_slots table = sync_time_slots ∅ /\
  sync_time_slots (sync_time_slots table) = sync_time_slots table /\
  size (sync_time_slots table) = 12%nat.
Proof.
  split; [apply sync_time_slots_lookup |].
  assert (forall t, sync_time_slots t = sync_time_slots ∅) as Hconst.
  { intros t. apply map_eq. intros s. rewrite !sync_time_slots_lookup.
    reflexivity. }
  split; [apply Hconst |]. split; [rewrite (Hconst (sync_time_slots table)), <- (Hconst table); reflexivity |].
  rewrite (Hconst table). vm_compute. reflexivity.
Qed.

(** ** Uploads *)

Lemma rsplit_dot_None (s : string) :
  rsplit_dot s = None <-> contains_dot s = false.
Proof.
  induction s as [|c s IH]; simpl; [tauto |].
  destruct (rsplit_dot s) as [ext|].
  - split; [discriminate |]. intros H. apply orb_false_iff in H as [_ H].
    apply IH in H. discriminate.
  - destruct (Ascii.eqb c "."%char); simpl; [split; discriminate |].
    split; intros _; [apply IH |]; reflexivity.
Qed.

Lemma rsplit_dot_last (stem ext : string) :
  contains_dot ext = false ->
  rsplit_dot (stem +:+ String "."%char ext) = Some ext.
Proof.
  intros Hext. apply rsplit_dot_None in Hext.
  induction stem as [|c stem IH]; simpl.
  - rewrite Hext. reflexivity.
  - rewrite IH. reflexivity.
Qed.

Lemma rsplit_dot_Some (s ext : string) :
  rsplit_dot s = Some ext ->
  exists stem : string,
    s = stem +:+ String "."%char ext /\ contains_dot ext = false.
Proof.
  revert ext. induction s as [|c s IH]; simpl; intros ext; [discriminate |].
  destruct (rsplit_dot s) as [ext'|] eqn:E.
  - intros [= <-]. destruct (IH ext' eq_refl) as (stem & -> & Hd).
    exists (String c stem). split; [reflexivity | exact Hd].
  - destruct (Ascii.eqb_spec c "."%char) as [->|_]; [| discriminate].
    intros [= <-]. exists EmptyString. split; [reflexivity |].
    apply rsplit_dot_None. exact E.
Qed.

Lemma contains_dot_app (stem ext : string) :
  contains_dot (stem +:+ String "."%char ext) = true.
Proof. induction stem as [|c stem IH]; simpl; [| rewrite IH, orb_true_r]; reflexivity. Qed.

Lemma existsb_eqb (s : string) (l : list string) :
  existsb (String.eqb s) l = true <-> s ∈ l.
Proof. exact (status_in_spec s l). Qed.

(** X22: [allowed_file] accepts a name exactly when the text after its
    last dot, in lower case, is png, jpg, jpeg, gif or webp: a name with no
    dot is refused, and whatever stands before the last dot, other
    extensions included, plays no part. *)
Theorem allowed_file_iff (filename : string) :
  (allowed_file filename = true <->
   exists stem ext : string,
     filename = stem +:+ String "."%char ext /\
     contains_dot ext = false /\
     lower ext ∈ ["png"; "jpg"; "jpeg"; "gif"; "webp"]) /\
  (contains_dot filename = false -> allowed_file filename = false) /\
  (forall stem stem' ext : string,
     contains_dot ext = false ->
     allowed_file (stem +:+ String "."%char ext) =
     allowed_file (stem' +:+ String "."%char ext)).
Proof.
  split; [| split].
  - unfold allowed_file. split.
    + intros H. apply andb_true_iff in H as [_ H].
      destruct (rsplit_dot filename) as [ext|] eqn:E; [| discriminate].
      destruct (rsplit_dot_Some _ _ E) as (stem & -> & Hd).
      exists stem, ext. split; [reflexivity |]. split; [exact Hd |].
      apply existsb_eqb. exact H.
    + intros (stem & ext & -> & Hd & Hin).
      rewrite contains_dot_app, (rsplit_dot_last _ _ Hd). simpl.
      apply existsb_eqb in Hin. exact Hin.
  - intros H. unfold allowed_file. rewrite H. reflexivity.
  - intros stem stem' ext Hd. unfold allowed_file.
    rewrite !contains_dot_app, !(rsplit_dot_last _ _ Hd). reflexivity.
Qed.

(** ** The cart page *)

Lemma cart_items_ids (catalog : gmap Z Product.t) (c : list CartItem.t) :
  cp_product_id <$>
    omap
      (fun item =>
         match catalog !! key_of (CartItem.product_id item) with
         | Some product =>
             Some (mk_page_item (key_of (CartItem.product_id item))
                     (Product.name product) (CartItem.price item)
                     (CartItem.quantity item) (Product.image_path product)
                     (fmul (CartItem.price item) (CartItem.quantity item))
                     (Product.quantity_available product)
                     (Product.unit_type product))
         | None => None
         end) c =
  filter (fun id => is_Some (catalog !! id)) (cart_keys c).
Proof.
  unfold cart_keys, cart_ids. induction c as [|item c IH]; [reflexivity |].
  rewrite !fmap_cons, filter_cons. simpl.
  destruct (catalog !! key_of (CartItem.product_id item)) as [p|] eqn:E.
  - destruct (decide (is_Some (Some p))) as [_|H];
      [| exfalso; apply H; eexists; reflexivity].
    simpl. f_equal. exact IH.
  - destruct (decide (is_Some (@None Product.t))) as [[? H]|_];
      [discriminate | exact IH].
Qed.

(** X23: the cart page lists, in the order of the cart, the lines whose
    product is still in the catalog and skips the others; each entry
    carries the price and quantity of the cart line, their float product
    as subtotal, and the name and stock the catalog has now. *)
Theorem cart_page_lines (st : State) (c : list CartItem.t) :
  cart (session st) = Some c ->
  cp_product_id <$> cart_items st =
    filter (fun id => is_Some (products (db st) !! id)) (cart_keys c) /\
  (forall entry : CartPageItem,
     entry ∈ cart_items st ->
     exists (line : CartItem.t) (product : Product.t),
       line ∈ c /\
       products (db st) !! cp_product_id entry = Some product /\
       key_of (CartItem.product_id line) = cp_product_id entry /\
       cp_price entry = CartItem.price line /\
       cp_quantity entry = CartItem.quantity line /\
       cp_subtotal entry =
         fmul (CartItem.price line) (CartItem.quantity line) /\
       cp_name entry = Product.name product /\
       cp_max_quantity entry = Product.quantity_available product).
Proof.
  intros Hc. unfold cart_items. rewrite Hc.
  split; [apply cart_items_ids |].
  intros entry Hin. apply list_elem_of_omap in Hin as (line & Hin & Hl).
  destruct (products (db st) !! key_of (CartItem.product_id line))
    as [product|] eqn:E; [| discriminate].
  injection Hl as <-. exists line, product. simpl.
  repeat split; [exact Hin | exact E].
Qed.

(** X24: the prices, quantities and subtotals of the cart page are those
    taken when the lines were added: two catalogs that hold the same
    products, at whatever prices, show the same ones. *)
Theorem cart_page_prices_frozen (st st' : State) :
  cart (session st') = cart (session st) ->
  (forall id : Z,
     is_Some (products (db st') !! id) <-> is_Some (products (db st) !! id)) ->
  (fun e => (cp_product_id e, cp_price e, cp_quantity e, cp_subtotal e))
    <$> cart_items st' =
  (fun e => (cp_product_id e, cp_price e, cp_quantity e, cp_subtotal e))
    <$> cart_items st.
Proof.
  intros Hc Hsame. unfold cart_items. rewrite Hc. clear Hc.
  destruct (cart (session st)) as [c|]; [| reflexivity].
  induction c as [|line c IH]; [reflexivity |]. simpl.
  specialize (Hsame (key_of (CartItem.product_id line))).
  destruct (products (db st') !! key_of (CartItem.product_id line)) as [p'|];
    destruct (products (db st) !! key_of (CartItem.product_id line)) as [p|];
    simpl.
  - f_equal. exact IH.
  - exfalso. destruct Hsame as [H _].
    destruct H as [? H]; [eexists; reflexivity | discriminate].
  - exfalso. destruct Hsame as [_ H].
    destruct H as [? H]; [eexists; reflexivity | discriminate].
  - exact IH.
Qed.

(** ** Prices are frozen in the cart *)

Lemma validate_stock_same_stock (catalog catalog' : gmap Z Product.t)
    (c : list CartItem.t) (total : Q) (acc : list CheckedItem) :
  (forall id : Z,
     Product.quantity_available <$> catalog' !! id =
     Product.quantity_available <$> catalog !! id) ->
  validate_stock catalog' c total acc = validate_stock catalog c total acc.
Proof.
  intros Hsame. revert total acc.
  induction c as [|item c IH]; intros total acc; [reflexivity |].
  simpl. specialize (Hsame (key_of (CartItem.product_id item))).
  destruct (catalog' !! key_of (CartItem.product_id item)) as [p'|];
    destruct (catalog !! key_of (CartItem.product_id item)) as [p|];
    simpl in Hsame; try discriminate; [| reflexivity].
  injection Hsame as ->. rewrite IH. reflexivity.
Qed.

Lemma create_items_same_items (oid : Z) (cis : list CheckedItem)
    (d d' : Database) :
  order_items d' = order_items d ->
  order_items (create_items oid cis d') = order_items (create_items oid cis d).
Proof.
  revert d d'. induction cis as [|ci cis IH]; intros d d' H; [exact H |].
  simpl. apply IH. simpl. rewrite H. reflexivity.
Qed.

Section Frozen.
Variable strptime : string -> string -> option datetime.

(** X25: a checkout reads the catalog for stock only: on two states with
    the same session, orders and order items whose catalogs give every
    product the same stock, whatever their prices and names, it gives the
    same answer and writes the same order and the same order items. *)
Theorem checkout_reads_stock_only (form : CheckoutForm) (utcnow : datetime)
    (st st' : State) :
  session st' = session st ->
  orders (db st') = orders (db st) ->
  order_items (db st') = order_items (db st) ->
  (forall id : Z,
     Product.quantity_available <$> products (db st') !! id =
     Product.quantity_available <$> products (db st) !! id) ->
  let r := process_checkout strptime form utcnow st in
  let r' := process_checkout strptime form utcnow st' in
  r'.1 = r.1 /\
  orders (db r'.2) = orders (db r.2) /\
  order_items (db r'.2) = order_items (db r.2).
Proof.
  intros Hs Ho Hi Hq r r'. subst r r'. unfold process_checkout.
  rewrite Hs, Ho.
  destruct (cart (session st)) as [[|item items]|]; [auto | | auto].
  destruct (negb _); [auto |]. destruct (strptime _ _); [| auto].
  rewrite (validate_stock_same_stock _ _ _ _ _ Hq).
  destruct (validate_stock _ _ _ _) as [[total cis]|]; [| auto].
  simpl. rewrite !create_items_orders. simpl.
  split; [reflexivity |]. split; [reflexivity |].
  apply create_items_same_items. exact Hi.
Qed.
End Frozen.

(** ** The cart in every reachable state *)

Lemma seller_requests_keep_session
    (strptime : string -> string -> option datetime) (req : Request)
    (st : State) :
  is_seller_request req = true ->
  session (handle strptime req st).2 = session st.
Proof.
  intros Hreq. destruct req; try discriminate; simpl;
    unfold add_product, update_product, mark_out_of_stock,
      update_order_status, delete_order, seller_login_required;
    destruct (seller_id (session st)); try reflexivity.
  - destruct (products (db st) !! id); reflexivity.
  - destruct (products (db st) !! id); reflexivity.
  - destruct (orders (db st) !! id); [| reflexivity].
    destruct (status_in _ _); reflexivity.
  - destruct (orders (db st) !! id); reflexivity.
Qed.

Lemma cart_unique_preserved
    (strptime : string -> string -> option datetime) (req : Request)
    (st : State) :
  cart_unique st -> cart_unique (handle strptime req st).2.
Proof.
  intros Hu.
  destruct (is_seller_request req) eqn:Hreq.
  { unfold cart_unique, cart_of.
    rewrite (seller_requests_keep_session strptime req st Hreq). exact Hu. }
  destruct req; try discriminate; simpl handle.
  - apply add_to_cart_keeps. exact Hu.
  - apply update_cart_keeps. exact Hu.
  - apply remove_from_cart_keeps. exact Hu.
  - destruct (process_checkout_cases strptime form utcnow st)
      as [[_ ->] | (items & Hc & Hne & Hform & Hall)]; [exact Hu |].
    destruct (process_checkout_placed strptime form utcnow st items Hc Hne
                Hform Hall) as (pickup & ->).
    apply NoDup_nil_2.
Qed.

(** X26: in every state that requests lead to from a session without a
    cart, no two lines of the cart hold equal ['product_id'] values (the
    number 1 and the text "1" are different values). *)
Theorem reachable_cart_unique
    (strptime : string -> string -> option datetime) (reqs : list Request)
    (st : State) :
  cart (session st) = None -> cart_unique (run strptime reqs st).
Proof.
  intros Hnone.
  assert (cart_unique st) as Hu.
  { unfold cart_unique, cart_of. rewrite Hnone. apply NoDup_nil_2. }
  clear Hnone. revert st Hu. unfold run.
  induction reqs as [|req reqs IH]; intros st Hu; [exact Hu |].
  simpl. apply IH. apply cart_unique_preserved. exact Hu.
Qed.

(** ** Updating a cart line twice *)

Lemma set_item_twice (c : list CartItem.t) (pid : ProductId) (q1 q2 : Q) :
  ~ q1 == 0 -> set_item (set_item c pid q1) pid q2 = set_item c pid q2.
Proof.
  intros Hq. apply Qeq_bool_false in Hq.
  induction c as [|x c IH]; [reflexivity |]. simpl.
  destruct (py_eq_spec (CartItem.product_id x) pid) as [E|E].
  - rewrite Hq. simpl. rewrite E, py_eq_refl.
    destruct (Qeq_bool q2 0); reflexivity.
  - simpl. destruct (py_eq_spec (CartItem.product_id x) pid);
      [contradiction |].
    rewrite IH. reflexivity.
Qed.

(** X27: quantities set by [update_cart] do not add up: of two updates of
    a product in a row that the stock covers, the first not to zero, the
    second alone decides the cart. *)
Theorem update_cart_twice (pid : ProductId) (q1 q2 : Q) (st : State)
    (product : Product.t) :
  is_Some (cart (session st)) ->
  products (db st) !! key_of pid = Some product ->
  q1 <= Product.quantity_available product ->
  q2 <= Product.quantity_available product ->
  ~ q1 == 0 ->
  update_cart pid q2 (update_cart pid q1 st).2 = update_cart pid q2 st.
Proof.
  intros [c Hc] Hp H1 H2 Hq. apply Qgtb_le in H1, H2.
  unfold update_cart. rewrite Hc, Hp, H1, H2. simpl. rewrite Hp, H2.
  rewrite (set_item_twice _ _ _ _ Hq). reflexivity.
Qed.

(** ** The dashboard after a deletion *)

(** X28: deleting an order takes it out of the dashboard: one order
    less, one pending order less when the order was pending and as many
    when it was not, and as many products. *)
Theorem dashboard_after_delete (id sid : Z) (st : State) (order : Order.t) :
  seller_id (session st) = Some sid ->
  orders (db st) !! id = Some order ->
  let d := db (delete_order id st).2 in
  S (total_orders d) = total_orders (db st) /\
  (Order.status order = "pending" ->
   S (pending_orders d) = pending_orders (db st)) /\
  (Order.status order <> "pending" ->
   pending_orders d = pending_orders (db st)) /\
  total_products d = total_products (db st).
Proof.
  intros Hs Ho d. subst d. unfold delete_order, seller_login_required.
  rewrite Hs, Ho. simpl. unfold total_orders, pending_orders. simpl.
  split; [| split; [| split; [| reflexivity]]].
  - rewrite <- (insert_delete_id (orders (db st)) id order Ho) at 2.
    rewrite map_size_insert_None by apply lookup_delete_eq. reflexivity.
  - intros Hp.
    rewrite <- (insert_delete_id (orders (db st)) id order Ho) at 2.
    rewrite map_filter_insert_True by exact Hp.
    rewrite map_size_insert_None; [reflexivity |].
    apply map_lookup_filter_None. left. apply lookup_delete_eq.
  - intros Hp.
    rewrite <- (insert_delete_id (orders (db st)) id order Ho) at 2.
    rewrite map_filter_insert_False by exact Hp.
    rewrite delete_delete_eq. reflexivity.
Qed.

(** ** The further statements at sample states *)

Lemma add_to_cart_within_stock_witness :
  products (db (shop 5 None)) !! key_of (int_id 1) = Some (apples 5) /\
  (add_to_cart (int_id 1) 2 (shop 5 None)).1 <> InsufficientStock /\
  exists item : CartItem.t,
    line_of (int_id 1) (cart_of (add_to_cart (int_id 1) 2 (shop 5 None)).2) = Some item /\
    CartItem.quantity item <= 5.
Proof.
  assert (products (db (shop 5 None)) !! key_of (int_id 1) = Some (apples 5))
    as H1 by reflexivity.
  assert ((add_to_cart (int_id 1) 2 (shop 5 None)).1 <> InsufficientStock) as H2
    by (vm_compute; discriminate).
  split; [exact H1 |]. split; [exact H2 |].
  exact (add_to_cart_within_stock (int_id 1) 2 (shop 5 None) (apples 5) H1 H2).
Defined.

Lemma update_cart_within_stock_witness :
  let st := shop 5 (Some [apples_line 2]) in
  cart_unique st /\
  products (db st) !! 1%Z = Some (apples 5) /\
  (update_cart (int_id 1) 4 st).1 = jsonify json_success 200 /\
  line_of (int_id 1) (cart_of (update_cart (int_id 1) 4 st).2) = Some (apples_line 4) /\
  CartItem.quantity (apples_line 4) <= 5.
Proof.
  intros st.
  assert (cart_unique st) as H1 by apply NoDup_singleton.
  assert (products (db st) !! 1%Z = Some (apples 5)) as H2 by reflexivity.
  assert ((update_cart (int_id 1) 4 st).1 = jsonify json_success 200) as H3
    by reflexivity.
  assert (line_of (int_id 1) (cart_of (update_cart (int_id 1) 4 st).2) = Some (apples_line 4))
    as H4 by reflexivity.
  repeat (split; [assumption |]).
  exact (update_cart_within_stock (int_id 1) 4 st (apples 5) (apples_line 4)
           H1 H2 H3 H4).
Defined.


Lemma add_then_remove_witness :
  let st := market (Some [apples_line 2]) in
  (int_id 2 ∉ cart_ids (cart_of st)) /\
  (add_to_cart (int_id 2) 6 st).1 <> InsufficientStock /\
  cart_of (remove_from_cart (int_id 2) (add_to_cart (int_id 2) 6 st).2).2 = [apples_line 2].
Proof.
  intros st.
  assert (int_id 2 ∉ cart_ids (cart_of st)) as H1.
  { simpl. rewrite list_elem_of_singleton. discriminate. }
  assert ((add_to_cart (int_id 2) 6 st).1 <> InsufficientStock) as H2
    by (vm_compute; discriminate).
  split; [exact H1 |]. split; [exact H2 |].
  exact (add_then_remove (int_id 2) 6 st H1 H2).
Defined.

Lemma update_zero_is_remove_witness :
  let st := shop 5 (Some [apples_line 2]) in
  cart (session st) = Some [apples_line 2] /\
  cart_unique st /\
  products (db st) !! 1%Z = Some (apples 5) /\
  0 <= Product.quantity_available (apples 5) /\
  update_cart (int_id 1) 0 st = remove_from_cart (int_id 1) st.
Proof.
  intros st.
  assert (cart_unique st) as H1 by apply NoDup_singleton.
  assert (0 <= Product.quantity_available (apples 5)) as H2 by discriminate.
  split; [reflexivity |]. split; [exact H1 |]. split; [reflexivity |].
  split; [exact H2 |].
  exact (update_zero_is_remove (int_id 1) st [apples_line 2] (apples 5) eq_refl H1
           eq_refl H2).
Defined.

Lemma cart_routes_other_lines_witness :
  let st := market (Some [apples_line 2; eggs_line]) in
  int_id 1 ≠ int_id 2 /\
  line_of (int_id 1) (cart_of (remove_from_cart (int_id 2) st).2) = Some (apples_line 2).
Proof.
  intros st.
  assert (int_id 1 ≠ int_id 2) as H by discriminate.
  split; [exact H |].
  destruct (cart_routes_other_lines (int_id 2) (int_id 1) 0 st H)
    as (_ & _ & Hr).
  rewrite Hr. reflexivity.
Defined.

Lemma add_to_cart_reserves_nothing_witness :
  let st := shop 5 None in
  (add_to_cart (int_id 1) 5 st).1 = jsonify (json_success_count 1) 200 /\
  cart (mk_session None None) = None /\
  (add_to_cart (int_id 1) 5
     (mk_state (db (add_to_cart (int_id 1) 5 st).2) (mk_session None None))).1 =
    jsonify (json_success_count 1) 200.
Proof.
  intros st.
  assert ((add_to_cart (int_id 1) 5 st).1 = jsonify (json_success_count 1) 200) as H
    by reflexivity.
  split; [exact H |]. split; [reflexivity |].
  exact (proj2 (add_to_cart_reserves_nothing (int_id 1) 5 st 1 (mk_session None None)
                  H eq_refl)).
Defined.

Lemma a_form_ok : form_ok any_time a_form.
Proof. repeat split. exists noon. reflexivity. Qed.

Lemma apples_accepted (q : Q) (c : option (list CartItem.t)) :
  q <= 5 ->
  Forall (fun item => ~ refused (products (db (shop 5 c))) item)
    [apples_line q].
Proof.
  intros Hq. apply Forall_singleton, not_refused. exists (apples 5).
  split; [reflexivity |]. split; [reflexivity | exact Hq].
Qed.

Lemma checkout_twice_witness :
  let st := shop 5 (Some [apples_line 2]) in
  is_placed (process_checkout any_time a_form noon st).1 = true /\
  (process_checkout any_time a_form noon
     (process_checkout any_time a_form noon st).2).1 = redirect ep_cart None.
Proof.
  intros st.
  assert (is_placed (process_checkout any_time a_form noon st).1 = true)
    as H by reflexivity.
  split; [exact H |].
  rewrite (checkout_twice any_time a_form a_form noon noon st H).
  reflexivity.
Defined.

Lemma checkout_then_delete_witness :
  let st := shop 5 (Some [apples_line 2]) in
  let placed := (process_checkout any_time a_form noon st).2 in
  let deleted :=
    (delete_order (next_id (orders (db st)))
       (mk_state (db placed) seller_session)).2 in
  cart (session st) = Some [apples_line 2] /\
  form_ok any_time a_form /\
  Forall (fun item => ~ refused (products (db st)) item) [apples_line 2] /\
  items_owned (db st) /\
  seller_id seller_session = Some 1%Z /\
  orders (db deleted) = orders (db st) /\
  order_items (db deleted) = order_items (db st) /\
  products (db deleted) = products (db placed).
Proof.
  intros st placed deleted.
  assert (Forall (fun item => ~ refused (products (db st)) item)
            [apples_line 2]) as Hall
    by (apply apples_accepted; discriminate).
  assert (items_owned (db st)) as Hown by constructor.
  split; [reflexivity |]. split; [exact a_form_ok |]. split; [exact Hall |].
  split; [exact Hown |]. split; [reflexivity |].
  exact (checkout_then_delete any_time a_form noon st [apples_line 2]
           seller_session 1 eq_refl ltac:(discriminate) a_form_ok Hall Hown
           eq_refl).
Defined.

Lemma seller_routes_need_login_witness :
  is_seller_request (POST_products_out_of_stock 1) = true /\
  seller_id (session (shop 5 None)) = None /\
  handle any_time (POST_products_out_of_stock 1) (shop 5 None) =
    (redirect ep_seller_login None, shop 5 None).
Proof.
  split; [reflexivity |]. split; [reflexivity |].
  exact (seller_routes_need_login any_time (POST_products_out_of_stock 1)
           (shop 5 None) eq_refl eq_refl).
Defined.

Lemma seller_routes_unknown_id_witness :
  seller_id (session (back_office 5)) = Some 1%Z /\
  products (db (back_office 5)) !! 9%Z = None /\
  mark_out_of_stock 9 (back_office 5) = (abort_404, back_office 5).
Proof.
  split; [reflexivity |]. split; [reflexivity |].
  destruct (seller_routes_unknown_id 9 1 (restock 1) None (back_office 5)
              eq_refl) as [H _].
  exact (proj2 (H eq_refl)).
Defined.

Lemma add_product_fresh_witness :
  seller_id (session (back_office 5)) = Some 1%Z /\
  products (db (add_product (restock 7) noon (back_office 5)).2) !! 1%Z =
    Some (apples 5) /\
  total_products (db (add_product (restock 7) noon (back_office 5)).2) = 2%nat.
Proof.
  split; [reflexivity |].
  destruct (add_product_fresh (restock 7) noon (back_office 5) 1 eq_refl)
    as (_ & _ & Hkeep & Hsize & _).
  split; [apply Hkeep; reflexivity | exact Hsize].
Defined.

Lemma out_of_stock_blocks_witness :
  let d := db (mark_out_of_stock 1 (back_office 5)).2 in
  seller_id (session (back_office 5)) = Some 1%Z /\
  products (db (back_office 5)) !! 1%Z = Some (apples 5) /\
  0 < 1 /\
  add_to_cart (int_id 1) 1 (mk_state d (mk_session None None)) =
    (InsufficientStock, mk_state d (mk_session None None)) /\
  add_to_cart (str_id 1) 1 (mk_state d (mk_session None None)) =
    (InsufficientStock, mk_state d (mk_session None None)).
Proof.
  intros d.
  split; [reflexivity |]. split; [reflexivity |]. split; [reflexivity |].
  destruct (out_of_stock_blocks any_time 1 1 (back_office 5) (apples 5)
              eq_refl eq_refl) as (_ & Hadd & _).
  split; apply Hadd; reflexivity.
Defined.

Lemma negative_quantity_restocks_witness :
  let st := shop 5 None in
  let r :=
    process_checkout any_time a_form noon (add_to_cart (int_id 1) (-3) st).2 in
  products (db st) !! key_of (int_id 1) = Some (apples 5) /\
  0 < Product.quantity_available (apples 5) /\
  -3 < 0 /\
  cart (session st) = None /\
  form_ok any_time a_form /\
  is_placed r.1 = true /\
  Product.quantity_available <$> products (db r.2) !! 1%Z = Some 8.
Proof.
  intros st r.
  split; [reflexivity |]. split; [reflexivity |]. split; [reflexivity |].
  split; [reflexivity |]. split; [exact a_form_ok |].
  destruct (negative_quantity_restocks any_time (int_id 1) (-3) st (apples 5)
              a_form noon eq_refl eq_refl eq_refl eq_refl a_form_ok)
    as (_ & Hplaced & p' & Hp' & Hq & _).
  split; [exact Hplaced |].
  change (key_of (int_id 1)) with 1%Z in Hp'.
  fold st in Hp'. fold r in Hp'. rewrite Hp'. simpl. rewrite Hq.
  vm_compute. reflexivity.
Defined.

Lemma update_order_status_twice_witness :
  let st := shop_with_order "pending" in
  seller_id (session st) = Some 1%Z /\
  is_Some (orders (db st) !! 1%Z) /\
  update_order_status 1 (Some "completed")
    (update_order_status 1 (Some "ready") st).2 =
  update_order_status 1 (Some "completed") st.
Proof.
  intros st. split; [reflexivity |]. split; [eexists; reflexivity |].
  apply (update_order_status_twice 1 1 "ready" "completed" st _ eq_refl
           eq_refl).
  - apply list_elem_of_further, list_elem_of_here.
  - do 2 apply list_elem_of_further. apply list_elem_of_here.
Defined.

Lemma delete_order_twice_witness :
  let st := shop_with_order "ready" in
  seller_id (session st) = Some 1%Z /\
  is_Some (orders (db st) !! 1%Z) /\
  (delete_order 1 (delete_order 1 st).2).1 = abort_404.
Proof.
  intros st. split; [reflexivity |]. split; [eexists; reflexivity |].
  rewrite (delete_order_twice 1 1 st _ eq_refl eq_refl). reflexivity.
Defined.

Lemma reachable_items_owned_witness :
  let reqs :=
    [POST_cart_add (int_id 1) 2; POST_checkout a_form noon; POST_cart_add (int_id 1) 1;
     POST_checkout a_form noon] in
  order_items (db (shop 5 None)) = [] /\
  length (order_items (db (run any_time reqs (shop 5 None)))) = 2%nat /\
  items_owned (db (run any_time reqs (shop 5 None))).
Proof.
  intros reqs. split; [reflexivity |]. split; [reflexivity |].
  exact (reachable_items_owned any_time reqs (shop 5 None) eq_refl).
Defined.

Lemma dashboard_after_checkout_witness :
  let st := shop 5 (Some [apples_line 2]) in
  cart (session st) = Some [apples_line 2] /\
  form_ok any_time a_form /\
  Forall (fun item => ~ refused (products (db st)) item) [apples_line 2] /\
  total_orders (db (process_checkout any_time a_form noon st).2) = 1%nat /\
  pending_orders (db (process_checkout any_time a_form noon st).2) = 1%nat.
Proof.
  intros st.
  assert (Forall (fun item => ~ refused (products (db st)) item)
            [apples_line 2]) as Hall
    by (apply apples_accepted; discriminate).
  split; [reflexivity |]. split; [exact a_form_ok |]. split; [exact Hall |].
  destruct (dashboard_after_checkout any_time a_form noon st [apples_line 2]
              eq_refl ltac:(discriminate) a_form_ok Hall)
    as (Ho & Hp & _).
  split; [exact Ho | exact Hp].
Defined.

Lemma cart_page_lines_witness :
  let st := shop 5 (Some [apples_line 2; eggs_line]) in
  cart (session st) = Some [apples_line 2; eggs_line] /\
  cp_product_id <$> cart_items st = [1%Z].
Proof.
  intros st. split; [reflexivity |].
  rewrite (proj1 (cart_page_lines st _ eq_refl)). reflexivity.
Defined.

Lemma cart_page_prices_frozen_witness :
  let st := shop 5 (Some [apples_line 2]) in
  let st' :=
    mk_state (db (update_product 1 (mk_product_form "Green Apples" None 99
                                      None 3 None None)
                    (back_office 5)).2)
      (session st) in
  cart (session st') = cart (session st) /\
  (forall id : Z,
     is_Some (products (db st') !! id) <-> is_Some (products (db st) !! id)) /\
  cp_name <$> cart_items st' = ["Green Apples"] /\
  cp_price <$> cart_items st' = [10.0].
Proof.
  intros st st'.
  assert (forall id : Z,
            is_Some (products (db st') !! id) <->
            is_Some (products (db st) !! id)) as Hsame.
  { intros id.
    assert (products (db st) = {[ 1%Z := apples 5 ]}) as -> by reflexivity.
    assert (products (db st') =
            <[ 1%Z := Product.mk "Green Apples" None 99 None 3 "quantity"
                        (Some "uploads/products/apples.svg") noon ]>
              {[ 1%Z := apples 5 ]}) as -> by reflexivity.
    destruct (decide (id = 1%Z)) as [->|Hne].
    - rewrite lookup_insert_eq, lookup_singleton_eq.
      split; intros _; eexists; reflexivity.
    - rewrite lookup_insert_ne by congruence. reflexivity. }
  split; [reflexivity |]. split; [exact Hsame |]. split; [reflexivity |].
  pose proof (cart_page_prices_frozen st st' eq_refl Hsame) as H.
  apply (f_equal (fmap (fun t => t.1.1.2))) in H.
  rewrite <- !list_fmap_compose in H. exact H.
Defined.

Lemma checkout_reads_stock_only_witness :
  let st := shop 5 (Some [apples_line 2]) in
  let st' :=
    mk_state
      (mk_db {[ 1%Z := Product.mk "Green Apples" None 99 None 5 "kg" None noon ]}
         ∅ [])
      (session st) in
  session st' = session st /\
  (forall id : Z,
     Product.quantity_available <$> products (db st') !! id =
     Product.quantity_available <$> products (db st) !! id) /\
  Order.total_amount <$>
    orders (db (process_checkout any_time a_form noon st').2) !! 1%Z
  = Some (cart_total [apples_line 2]).
Proof.
  intros st st'.
  assert (forall id : Z,
            Product.quantity_available <$> products (db st') !! id =
            Product.quantity_available <$> products (db st) !! id) as Hq.
  { intros id. subst st st'. simpl.
    destruct (decide (id = 1%Z)) as [->|Hne].
    - rewrite !lookup_singleton_eq. reflexivity.
    - rewrite !lookup_singleton_ne by congruence. reflexivity. }
  split; [reflexivity |]. split; [exact Hq |].
  destruct (checkout_reads_stock_only any_time a_form noon st st' eq_refl
              eq_refl eq_refl Hq) as (_ & Ho & _).
  cbv zeta in Ho. rewrite Ho. reflexivity.
Defined.

Lemma reachable_cart_unique_witness :
  let reqs :=
    [POST_cart_add (int_id 1) 2; POST_cart_add (int_id 1) 1;
     POST_cart_update (int_id 1) 4; POST_cart_add (str_id 1) 1] in
  cart (session (shop 5 None)) = None /\
  cart_of (run any_time reqs (shop 5 None)) =
    [apples_line 4; apples_text_line 1] /\
  cart_unique (run any_time reqs (shop 5 None)).
Proof.
  intros reqs. split; [reflexivity |]. split; [vm_compute; reflexivity |].
  exact (reachable_cart_unique any_time reqs (shop 5 None) eq_refl).
Defined.

Lemma update_cart_twice_witness :
  let st := shop 5 (Some [apples_line 2]) in
  is_Some (cart (session st)) /\
  products (db st) !! key_of (int_id 1) = Some (apples 5) /\
  3 <= 5 /\ 4 <= 5 /\ ~ 3 == 0 /\
  cart_of (update_cart (int_id 1) 4 (update_cart (int_id 1) 3 st).2).2 = [apples_line 4].
Proof.
  intros st.
  assert (is_Some (cart (session st))) as H0 by (eexists; reflexivity).
  assert (3 <= 5) as H1 by discriminate.
  assert (4 <= 5) as H2 by discriminate.
  assert (~ 3 == 0) as H3 by discriminate.
  split; [exact H0 |]. split; [reflexivity |]. split; [exact H1 |].
  split; [exact H2 |]. split; [exact H3 |].
  rewrite (update_cart_twice (int_id 1) 3 4 st (apples 5) H0 eq_refl H1 H2 H3).
  reflexivity.
Defined.

Lemma dashboard_after_delete_witness :
  let st := shop_with_order "ready" in
  seller_id (session st) = Some 1%Z /\
  is_Some (orders (db st) !! 1%Z) /\
  total_orders (db (delete_order 1 st).2) = 0%nat /\
  pending_orders (db (delete_order 1 st).2) = pending_orders (db st).
Proof.
  intros st. split; [reflexivity |]. split; [eexists; reflexivity |].
  destruct (dashboard_after_delete 1 1 st _ eq_refl eq_refl)
    as (Ho & _ & Hp & _).
  split; [exact (eq_add_S _ 0%nat Ho) |].
  apply Hp. discriminate.
Defined.
